(** * nvchecker, GitHub source: strategy selection, response parsing and
      rate-limit classification of [nvchecker_source/github.py].

    The development is a shallow embedding of the Python module.  Python
    values are dynamically typed, so configuration entries and decoded JSON
    payloads share one type [value]; a Python [str] is the sequence of the
    bytes of its UTF-8 encoding (all patterns the module searches for are
    ASCII).  Floating point numbers are left out of [value].  Exceptions are
    the constructors of [exn]; effects (cache and transport calls, log
    entries) are recorded, in program order, in the trace threaded by the
    monad [M]. *)

From Stdlib Require Import ZArith Ascii String List Lia Bool.
From stdpp Require Import base option gmap strings pretty.

Local Open Scope Z_scope.
Set Warnings "-register-all".

(** ** Python string methods used by the module *)

Module PyStr.

Definition in_chars (c : ascii) (chars : string) : bool :=
  existsb (Ascii.eqb c) (list_ascii_of_string chars).

(** [s.rstrip(chars)]: drop every trailing character that occurs in
    [chars]. *)
Fixpoint rstrip (chars s : string) : string :=
  match s with
  | EmptyString => EmptyString
  | String c r =>
      match rstrip chars r with
      | EmptyString =>
          if in_chars c chars then EmptyString else String c EmptyString
      | r' => String c r'
      end
  end.

(** Scan of [s.replace(old, new)] for a non-empty [old]: [skip] counts the
    characters of the current match that are still to be consumed. *)
Fixpoint replace_from (old new s : string) (skip : nat) : string :=
  match s with
  | EmptyString => EmptyString
  | String c r =>
      match skip with
      | S k => replace_from old new r k
      | O =>
          if String.prefix old s
          then new +:+ replace_from old new r (String.length old - 1)
          else String c (replace_from old new r 0)
      end
  end.

Fixpoint interleave (new s : string) : string :=
  match s with
  | EmptyString => EmptyString
  | String c r => String c (new +:+ interleave new r)
  end.

(** [s.replace(old, new)]: every non-overlapping occurrence, left to
    right; an empty [old] matches before every character and at the
    end. *)
Definition replace (old new s : string) : string :=
  match old with
  | EmptyString => new +:+ interleave new s
  | _ => replace_from old new s 0
  end.

Definition may_split (budget : option nat) : bool :=
  match budget with
  | Some O => false
  | _ => true
  end.

Definition spend (budget : option nat) : option nat :=
  match budget with
  | Some n => Some (Nat.pred n)
  | None => None
  end.

Fixpoint split_from (sep s : string) (skip : nat) (budget : option nat)
  : list string :=
  match s with
  | EmptyString => [EmptyString]
  | String c r =>
      match skip with
      | S k => split_from sep r k budget
      | O =>
          if may_split budget && String.prefix sep s
          then EmptyString
                 :: split_from sep r (String.length sep - 1) (spend budget)
          else match split_from sep r 0 budget with
               | p :: ps => String c p :: ps
               | [] => [String c EmptyString]
               end
      end
  end.

(** [s.split(sep, maxsplit)] for a given separator; [maxsplit = None] is
    Python's default of an unbounded number of splits.  [None] is returned
    where Python raises [ValueError] (empty separator). *)
Definition split (sep : string) (maxsplit : option nat) (s : string)
  : option (list string) :=
  match sep with
  | EmptyString => None
  | _ => Some (split_from sep s 0 maxsplit)
  end.

(** [sub in s] on two strings. *)
Fixpoint contains (sub s : string) : bool :=
  String.prefix sub s ||
  match s with
  | EmptyString => false
  | String _ r => contains sub r
  end.

Fixpoint join (sep : string) (parts : list string) : string :=
  match parts with
  | [] => EmptyString
  | [p] => p
  | p :: ps => p +:+ sep +:+ join sep ps
  end.

(** *** [int(s)] on an ASCII string: surrounding white space, an optional
    sign, decimal digits with single underscores between digits. *)

(** The white space [int] skips around an ASCII literal: the space and the
    bytes 9 to 13. *)
Definition is_space (c : ascii) : bool :=
  let n := nat_of_ascii c in
  (Nat.eqb n 32 || (Nat.leb 9 n && Nat.leb n 13))%bool.

Definition is_digit (c : ascii) : bool :=
  let n := nat_of_ascii c in (Nat.leb 48 n && Nat.leb n 57)%bool.

Definition digit_val (c : ascii) : Z := Z.of_nat (nat_of_ascii c) - 48.

Fixpoint lstrip_space (s : string) : string :=
  match s with
  | String c r => if is_space c then lstrip_space r else s
  | EmptyString => EmptyString
  end.

Fixpoint rstrip_space (s : string) : string :=
  match s with
  | EmptyString => EmptyString
  | String c r =>
      match rstrip_space r with
      | EmptyString =>
          if is_space c then EmptyString else String c EmptyString
      | r' => String c r'
      end
  end.

(** [after_digit] tells whether the previous character was a digit, the
    only place where an underscore or the end of the literal may come. *)
Fixpoint digits (acc : Z) (after_digit : bool) (s : string) : option Z :=
  match s with
  | EmptyString => if after_digit then Some acc else None
  | String c r =>
      if is_digit c then digits (10 * acc + digit_val c) true r
      else if Ascii.eqb c "_" && after_digit then
        match r with
        | String d _ => if is_digit d then digits acc false r else None
        | EmptyString => None
        end
      else None
  end.

Definition int_of_string (s : string) : option Z :=
  match rstrip_space (lstrip_space s) with
  | String "-" r => Z.opp <$> digits 0 false r
  | String "+" r => digits 0 false r
  | r => digits 0 false r
  end.

(** *** [urllib.parse.quote_plus] and [urlencode] *)

Definition is_alpha (c : ascii) : bool :=
  let n := nat_of_ascii c in
  ((Nat.leb 65 n && Nat.leb n 90) || (Nat.leb 97 n && Nat.leb n 122))%bool.

Definition always_safe (c : ascii) : bool :=
  (is_alpha c || is_digit c || in_chars c "_.-~")%bool.

Definition hex_digit (n : nat) : ascii :=
  if Nat.ltb n 10 then ascii_of_nat (48 + n) else ascii_of_nat (55 + n).

Definition percent (c : ascii) : string :=
  let n := nat_of_ascii c in
  String "%" (String (hex_digit (Nat.div n 16))
                (String (hex_digit (Nat.modulo n 16)) EmptyString)).

Fixpoint quote_plus (s : string) : string :=
  match s with
  | EmptyString => EmptyString
  | String c r =>
      if always_safe c then String c (quote_plus r)
      else if Ascii.eqb c " " then String "+" (quote_plus r)
      else percent c +:+ quote_plus r
  end.

End PyStr.


(** ** Python values *)

(** Configuration entries (TOML) and decoded JSON payloads. *)
Inductive value : Type :=
| VNone
| VBool (b : bool)
| VInt (n : Z)
| VStr (s : string)
| VList (l : list value)
| VDict (d : list (string * value)).

(** A subscript [obj[k]]: a string key or an integer position. *)
Inductive index : Type :=
| Key (k : string)
| Pos (i : Z).

(** The [RichResult] dataclass; its fields are not type checked at run
    time, so they hold any value. *)
Record RichResult : Type := mkRichResult {
  version : value;
  url : value;
}.

(** What a resolution returns: [None], one [RichResult], or a list. *)
Inductive result : Type :=
| RNone
| RRich (r : RichResult)
| RList (l : list RichResult).

(** The response object attached to an HTTP error or returned by the
    transport: its headers and the outcome of [res.json()] ([None] when the
    body does not decode). *)
Record Response : Type := mkResponse {
  headers : gmap string string;
  json : option value;
}.

Inductive exn : Type :=
| GetVersionError (msg : string)
| TemporaryError (code : Z) (message : string) (response : option Response)
| HTTPError (code : Z) (message : string) (response : option Response)
| KeyError (key : index)
| IndexError
| TypeError
| AttributeError
| ValueError
| JSONDecodeError
| OtherError (name : string).

(** Which fetcher is handed to [cache.get]. *)
Inductive fetcher : Type :=
| FetchLatestTag
| FetchLatestReleaseWithPrereleases.

(** Observable effects of one resolution, in program order. *)
Inductive event : Type :=
| CacheGet (key : list value) (f : fetcher)
| SessionPost (url : string) (hdrs : gmap string string) (body : value)
| CacheGetJson (url : string) (hdrs : gmap string string)
| LogError (msg : string) (name : string) (reset : Z).

(** The collaborators the module calls into: the transport's [session.post],
    the cache's [get_json], [time.ctime], and Python's [str()] of lists and
    dicts (their [repr], which the module never inspects). *)
Record World : Type := mkWorld {
  session_post : string -> gmap string string -> value -> exn + Response;
  cache_get_json_result : string -> gmap string string -> exn + value;
  ctime : Z -> exn + string;
  repr_compound : value -> string;
}.

(** ** The effect monad: exceptions and a trace of events *)

Definition M (A : Type) : Type := list event -> (exn + A) * list event.

Definition ret {A} (a : A) : M A := fun tr => (inr a, tr).
Definition throw {A} (e : exn) : M A := fun tr => (inl e, tr).
Definition lift {A} (r : exn + A) : M A := fun tr => (r, tr).
Definition tell (ev : event) : M unit := fun tr => (inr tt, tr ++ [ev]).

Definition bind {A B} (m : M A) (f : A -> M B) : M B :=
  fun tr =>
    match m tr with
    | (inr a, tr') => f a tr'
    | (inl e, tr') => (inl e, tr')
    end.

(** [try: m except <handles> as e: h e]. *)
Definition try_except {A} (m : M A) (handles : exn -> bool) (h : exn -> M A)
  : M A :=
  fun tr =>
    match m tr with
    | (inl e, tr') => if handles e then h e tr' else (inl e, tr')
    | ok => ok
    end.

Declare Scope py_scope.
Delimit Scope py_scope with py.
Notation "'let*' x := m 'in' k" := (bind m (fun x => k))
  (at level 10, x name, m at level 100, k at level 200) : py_scope.
Notation "'let+' x := r 'in' k" := (bind (lift r) (fun x => k))
  (at level 10, x name, r at level 100, k at level 200) : py_scope.

(** Sequencing of pure steps that may raise. *)
Definition ebind {A B} (r : exn + A) (f : A -> exn + B) : exn + B :=
  match r with
  | inr a => f a
  | inl e => inl e
  end.
Notation "'let?' x := r 'in' k" := (ebind r (fun x => k))
  (at level 10, x name, r at level 100, k at level 200) : py_scope.
Local Open Scope py_scope.

(** ** Dynamic operations of Python on [value] *)

Definition truthy (v : value) : bool :=
  match v with
  | VNone => false
  | VBool b => b
  | VInt n => negb (n =? 0)
  | VStr EmptyString => false
  | VStr _ => true
  | VList [] => false
  | VList _ => true
  | VDict [] => false
  | VDict _ => true
  end.

Definition is_none (v : value) : bool :=
  match v with
  | VNone => true
  | _ => false
  end.

Fixpoint assoc (k : string) (d : list (string * value)) : option value :=
  match d with
  | [] => None
  | (k', v) :: d' => if String.eqb k k' then Some v else assoc k d'
  end.

Definition char_values (s : string) : list value :=
  map (fun c => VStr (String c EmptyString)) (list_ascii_of_string s).

(** [seq[i]] on a Python sequence of length [length l]. *)
Definition nth_item {A} (l : list A) (i : Z) : exn + A :=
  let n := Z.of_nat (length l) in
  let j := if i <? 0 then i + n else i in
  if (j <? 0) || (n <=? j) then inl IndexError
  else match nth_error l (Z.to_nat j) with
       | Some a => inr a
       | None => inl IndexError
       end.

(** [obj[k]]. *)
Definition getitem (obj : value) (k : index) : exn + value :=
  match obj, k with
  | VDict d, Key s =>
      match assoc s d with
      | Some v => inr v
      | None => inl (KeyError k)
      end
  | VDict _, Pos _ => inl (KeyError k)
  | VList l, Pos i => nth_item l i
  | VStr s, Pos i => nth_item (char_values s) i
  | VList _, Key _ | VStr _, Key _ => inl TypeError
  | VNone, _ | VBool _, _ | VInt _, _ => inl TypeError
  end.

(** [obj[k1][k2]...], left to right. *)
Fixpoint getpath (obj : value) (ks : list index) : exn + value :=
  match ks with
  | [] => inr obj
  | k :: ks' =>
      match getitem obj k with
      | inr v => getpath v ks'
      | inl e => inl e
      end
  end.

Arguments getpath : simpl never.

(** [for x in obj]. *)
Definition py_iter (obj : value) : exn + list value :=
  match obj with
  | VList l => inr l
  | VDict d => inr (map (fun kv => VStr (fst kv)) d)
  | VStr s => inr (char_values s)
  | VNone | VBool _ | VInt _ => inl TypeError
  end.

Definition is_str (s : string) (v : value) : bool :=
  match v with
  | VStr s' => String.eqb s s'
  | _ => false
  end.

(** [s in obj] for a string [s]. *)
Definition py_in (s : string) (obj : value) : exn + bool :=
  match obj with
  | VDict d => inr (match assoc s d with Some _ => true | None => false end)
  | VList l => inr (existsb (is_str s) l)
  | VStr t => inr (PyStr.contains s t)
  | VNone | VBool _ | VInt _ => inl TypeError
  end.

(** [int(v)]. *)
Definition py_int (v : value) : exn + Z :=
  match v with
  | VInt n => inr n
  | VBool b => inr (if b then 1 else 0)
  | VStr s =>
      match PyStr.int_of_string s with
      | Some n => inr n
      | None => inl ValueError
      end
  | VNone | VList _ | VDict _ => inl TypeError
  end.

(** [v.split(sep, maxsplit)]: only [str] has the method. *)
Definition method_split (v : value) (sep : string) (maxsplit : option nat)
  : exn + list string :=
  match v with
  | VStr s =>
      match PyStr.split sep maxsplit s with
      | Some parts => inr parts
      | None => inl ValueError
      end
  | _ => inl AttributeError
  end.

Section WithWorld.

Variable w : World.

(** [str(v)], as used by [%s], [str.format] and f-strings. *)
Definition py_str (v : value) : string :=
  match v with
  | VNone => "None"
  | VBool true => "True"
  | VBool false => "False"
  | VInt n => pretty n
  | VStr s => s
  | VList _ | VDict _ => repr_compound w v
  end.

(** [urllib.parse.urlencode] of a dict, in insertion order. *)
Definition urlencode (parameters : list (string * value)) : string :=
  PyStr.join "&"
    (map (fun kv => PyStr.quote_plus (fst kv) +:+ "=" +:+
                    PyStr.quote_plus (py_str (snd kv))) parameters).

End WithWorld.

(** ** The module [nvchecker_source/github.py] *)

Definition dq : string := String (ascii_of_nat 34) EmptyString.
Definition nl : string := String (ascii_of_nat 10) EmptyString.

Definition GITHUB_URL (repo : string) : string :=
  "https://api.github.com/repos/" +:+ repo +:+ "/commits".
Definition GITHUB_LATEST_RELEASE (repo : string) : string :=
  "https://api.github.com/repos/" +:+ repo +:+ "/releases/latest".
Definition GITHUB_MAX_TAG (repo : string) : string :=
  "https://api.github.com/repos/" +:+ repo +:+ "/git/refs/tags".
Definition GITHUB_GRAPHQL_URL : string := "https://api.github.com/graphql".

(** [QUERY_LATEST_TAG.format(name=..., owner=..., query=...)]. *)
Definition QUERY_LATEST_TAG (name owner query : string) : string :=
  nl +:+
  "{" +:+ nl +:+
  "  repository(name: " +:+ dq +:+ name +:+ dq +:+
     ", owner: " +:+ dq +:+ owner +:+ dq +:+ ") {" +:+ nl +:+
  "    refs(refPrefix: " +:+ dq +:+ "refs/tags/" +:+ dq +:+
     ", first: 1," +:+ nl +:+
  "         query: " +:+ dq +:+ query +:+ dq +:+ "," +:+ nl +:+
  "         orderBy: {field: TAG_COMMIT_DATE, direction: DESC}) {" +:+ nl +:+
  "      edges {" +:+ nl +:+
  "        node {" +:+ nl +:+
  "          name" +:+ nl +:+
  "        }" +:+ nl +:+
  "      }" +:+ nl +:+
  "    }" +:+ nl +:+
  "  }" +:+ nl +:+
  "}" +:+ nl.

(** [QUERY_LATEST_RELEASE_WITH_PRERELEASES.format(name=..., owner=...)]. *)
Definition QUERY_LATEST_RELEASE_WITH_PRERELEASES (name owner : string)
  : string :=
  nl +:+
  "{" +:+ nl +:+
  "  repository(name: " +:+ dq +:+ name +:+ dq +:+
     ", owner: " +:+ dq +:+ owner +:+ dq +:+ ") {" +:+ nl +:+
  "    releases(first: 1, orderBy: {field: CREATED_AT, direction: DESC}) {"
     +:+ nl +:+
  "      edges {" +:+ nl +:+
  "        node {" +:+ nl +:+
  "          name" +:+ nl +:+
  "          url" +:+ nl +:+
  "        }" +:+ nl +:+
  "      }" +:+ nl +:+
  "    }" +:+ nl +:+
  "  }" +:+ nl +:+
  "}" +:+ nl.

(** [conf[k]] and [conf.get(k, default)] on the configuration entry. *)
Definition conf_item (conf : gmap string value) (k : string) : exn + value :=
  match conf !! k with
  | Some v => inr v
  | None => inl (KeyError (Key k))
  end.

Definition conf_get (conf : gmap string value) (k : string) (dflt : value)
  : value :=
  default dflt (conf !! k).

(** Modelled from the spec: the key manager is a lookup by forge name that
    may find nothing ([KeyManager.get_key] is not part of this module). *)
Definition get_key (keymanager : gmap string value) (name : string) : value :=
  default VNone (keymanager !! name).

(** [owner, reponame = repo.split('/')]: exactly two parts or
    [ValueError]. *)
Definition unpack2 (parts : list string) : exn + string * string :=
  match parts with
  | [a; b] => inr (a, b)
  | _ => inl ValueError
  end.

Definition graphql_headers (token : string) : gmap string string :=
  <["Content-Type" := "application/json"]>
    {["Authorization" := "bearer " +:+ token]}.

(** [res.json()]. *)
Definition response_json (res : Response) : exn + value :=
  match json res with
  | Some j => inr j
  | None => inl JSONDecodeError
  end.

(** [exc.response]; only the HTTP errors carry the attribute. *)
Definition exc_response (exc : exn) : exn + option Response :=
  match exc with
  | TemporaryError _ _ r | HTTPError _ _ r => inr r
  | _ => inl AttributeError
  end.

Definition is_TemporaryError (e : exn) : bool :=
  match e with
  | TemporaryError _ _ _ => true
  | _ => false
  end.

(** [res.headers.get(k, default)]. *)
Definition headers_get (res : Response) (k : string) (dflt : value) : value :=
  default dflt (VStr <$> headers res !! k).

(** The date transform of the commits strategy on a string:
    [d.rstrip('Z').replace('-', '').replace(':', '').replace('T', '.')]. *)
Definition date_version (d : string) : string :=
  PyStr.replace "T" "."
    (PyStr.replace ":" EmptyString
       (PyStr.replace "-" EmptyString (PyStr.rstrip "Z" d))).

(** The transform as the spec words it, one character at a time: '-' and
    ':' are removed, 'T' becomes '.', anything else stays. *)
Definition date_char (c : ascii) : string :=
  if Ascii.eqb c "-" then EmptyString
  else if Ascii.eqb c ":" then EmptyString
  else if Ascii.eqb c "T" then "."
  else String c EmptyString.

Fixpoint string_flat_map (f : ascii -> string) (s : string) : string :=
  match s with
  | EmptyString => EmptyString
  | String c r => f c +:+ string_flat_map f r
  end.

Fixpoint last_char (s : string) : option ascii :=
  match s with
  | EmptyString => None
  | String c r =>
      match last_char r with
      | Some x => Some x
      | None => Some c
      end
  end.

Definition ends_with_Z (s : string) : bool :=
  match last_char s with
  | Some c => Ascii.eqb c "Z"
  | None => false
  end.

(** The last character that is not part of the run of trailing 'Z's. *)
Fixpoint last_non_Z (s : string) : option ascii :=
  match s with
  | EmptyString => None
  | String c r =>
      match last_non_Z r with
      | Some x => Some x
      | None => if Ascii.eqb c "Z" then None else Some c
      end
  end.

(** *** Well-formed timestamps: [YYYY-MM-DDTHH:MM:SS], an optional fraction
    of a second, and a zone that is empty, [Z] or [+HH:MM] / [-HH:MM]. *)

Definition zone_ok (z : string) : bool :=
  match z with
  | EmptyString => true
  | String c EmptyString => Ascii.eqb c "Z"
  | String sg (String h1 (String h2 (String cl (String m1
      (String m2 EmptyString))))) =>
      (Ascii.eqb sg "+" || Ascii.eqb sg "-") &&
      PyStr.is_digit h1 && PyStr.is_digit h2 && Ascii.eqb cl ":" &&
      PyStr.is_digit m1 && PyStr.is_digit m2
  | _ => false
  end.

(** One or more digits, then the zone. *)
Fixpoint fraction_ok (s : string) : bool :=
  match s with
  | EmptyString => false
  | String c r => PyStr.is_digit c && (zone_ok r || fraction_ok r)
  end.

Definition tail_ok (rest : string) : bool :=
  zone_ok rest ||
  match rest with
  | String c r => Ascii.eqb c "." && fraction_ok r
  | EmptyString => false
  end.

Definition iso8601 (s : string) : bool :=
  match s with
  | String y1 (String y2 (String y3 (String y4 (String p1
      (String m1 (String m2 (String p2 (String d1 (String d2 (String t
      (String h1 (String h2 (String c1 (String n1 (String n2 (String c2
      (String s1 (String s2 rest)))))))))))))))))) =>
      PyStr.is_digit y1 && PyStr.is_digit y2 && PyStr.is_digit y3 &&
      PyStr.is_digit y4 && Ascii.eqb p1 "-" &&
      PyStr.is_digit m1 && PyStr.is_digit m2 && Ascii.eqb p2 "-" &&
      PyStr.is_digit d1 && PyStr.is_digit d2 && Ascii.eqb t "T" &&
      PyStr.is_digit h1 && PyStr.is_digit h2 && Ascii.eqb c1 ":" &&
      PyStr.is_digit n1 && PyStr.is_digit n2 && Ascii.eqb c2 ":" &&
      PyStr.is_digit s1 && PyStr.is_digit s2 && tail_ok rest
  | _ => false
  end.

(** The same expression on a value: only [str] has [rstrip]. *)
Definition date_version_of (v : value) : exn + value :=
  match v with
  | VStr d => inr (VStr (date_version d))
  | _ => inl AttributeError
  end.

(** [x[-1]] on the list a split returned. *)
Definition last_item (parts : list string) : exn + string :=
  nth_item parts (-1).

(** [ref['ref'].split('/', 2)[-1]]. *)
Definition tag_of_ref (ref : value) : exn + string :=
  let? r := getitem ref (Key "ref") in
  let? parts := method_split r "/" (Some 2%nat) in
  last_item parts.

(** The same expression on a string, where nothing can raise: the last of
    the at most three parts of [s.split('/', 2)]. *)
Definition tag_name (s : string) : string :=
  List.last (PyStr.split_from "/" s 0 (Some 2%nat)) EmptyString.

(** A list comprehension whose body may raise: the first failure wins. *)
Fixpoint comprehension {A B} (f : A -> exn + B) (l : list A)
  : exn + list B :=
  match l with
  | [] => inr []
  | x :: l' =>
      let? y := f x in
      let? ys := comprehension f l' in
      inr (y :: ys)
  end.

(** The token: the entry's own, else the key manager's. *)
Definition resolve_token (conf keymanager : gmap string value) : value :=
  let token := conf_get conf "token" VNone in
  if is_none token then get_key keymanager "github" else token.

(** The [parameters] dict of the commits request, in insertion order. *)
Definition commit_parameters (br path : value) : list (string * value) :=
  (if truthy br then [("sha", br)] else []) ++
  (if truthy path then [("path", path)] else []).

(** The message of the rate-limit log entry (lines 205-206). *)
Definition rate_limit_message (at_time : string) : string :=
  "rate limited, resetting at " +:+ at_time +:+
  ". Or get an API token to increase the allowance if not yet".

Section Github.

Variable w : World.

(** Modelled from the spec: [session.post] is the external transport; the
    call is recorded and its outcome is the collaborator's. *)
Definition post (url : string) (hdrs : gmap string string) (body : value)
  : M Response :=
  let* _ := tell (SessionPost url hdrs body) in
  lift (session_post w url hdrs body).

(** Modelled from the spec: [cache.get(key, func)] of the deduplicating
    cache, on a key it has not memoised: the fetcher runs on the key. *)
Definition cache_get {A} (key : list value) (f : fetcher)
  (func : list value -> M A) : M A :=
  let* _ := tell (CacheGet key f) in
  func key.

(** Modelled from the spec: [cache.get_json(url, headers=...)] fetches the
    URL through the cache and returns the decoded JSON document. *)
Definition cache_get_json (url : string) (hdrs : gmap string string)
  : M value :=
  let* _ := tell (CacheGetJson url hdrs) in
  lift (cache_get_json_result w url hdrs).

Definition get_latest_tag (key : list value) : M result :=
  match key with
  | [repo; query; token] =>
      let+ parts := method_split repo "/" None in
      let+ names := unpack2 parts in
      let owner := fst names in
      let reponame := snd names in
      let hdrs := graphql_headers (py_str w token) in
      let q := QUERY_LATEST_TAG reponame owner (py_str w query) in
      let* res := post GITHUB_GRAPHQL_URL hdrs (VDict [("query", VStr q)]) in
      let+ j := response_json res in
      let+ refs := getpath j [Key "data"; Key "repository"; Key "refs";
                              Key "edges"] in
      if negb (truthy refs) then throw (GetVersionError "no tag found")
      else
        let+ version := getpath refs [Pos 0; Key "node"; Key "name"] in
        ret (RRich {|
          version := version;
          url := VStr ("https://github.com/" +:+ py_str w repo +:+
                       "/releases/tag/" +:+ py_str w version) |})
  | _ => throw ValueError
  end.

Definition get_latest_release_with_prereleases (key : list value)
  : M result :=
  match key with
  | [repo; token] =>
      let+ parts := method_split repo "/" None in
      let+ names := unpack2 parts in
      let owner := fst names in
      let reponame := snd names in
      let hdrs := graphql_headers (py_str w token) in
      let q := QUERY_LATEST_RELEASE_WITH_PRERELEASES reponame owner in
      let* res := post GITHUB_GRAPHQL_URL hdrs (VDict [("query", VStr q)]) in
      let+ j := response_json res in
      let+ refs := getpath j [Key "data"; Key "repository"; Key "releases";
                              Key "edges"] in
      if negb (truthy refs) then throw (GetVersionError "no release found")
      else
        let+ version := getpath refs [Pos 0; Key "node"; Key "name"] in
        let+ url := getpath refs [Pos 0; Key "node"; Key "url"] in
        ret (RRich {| version := version; url := url |})
  | _ => throw ValueError
  end.

(** Lines 155-161: the URL of the commits request. *)
Definition commits_url (repo br path : value) : string :=
  GITHUB_URL (py_str w repo) +:+ "?" +:+
  urlencode w (commit_parameters br path).

(** The request headers of the REST strategies (lines 162-166). *)
Definition rest_headers (token : value) : gmap string string :=
  let hdrs :=
    {["Accept" := "application/vnd.github.quicksilver-preview+json"]} in
  if truthy token
  then <["Authorization" := "token " +:+ py_str w token]> hdrs
  else hdrs.

(** One element of the comprehension of lines 171-176; the tag expression
    is evaluated for [version] and again for [url]. *)
Definition tag_result (repo : value) (ref : value) : exn + RichResult :=
  let? v := tag_of_ref ref in
  let? v' := tag_of_ref ref in
  inr {| version := VStr v;
         url := VStr ("https://github.com/" +:+ py_str w repo +:+
                      "/releases/tag/" +:+ v') |}.

(** Lines 170-179: the [use_max_tag] branch after the fetch. *)
Definition parse_max_tag (repo data : value) : exn + result :=
  let? refs := py_iter data in
  let? tags := comprehension (tag_result repo) refs in
  match tags with
  | [] => inl (GetVersionError "No tag found in upstream repository.")
  | _ => inr (RList tags)
  end.

(** Lines 181-187: the [use_latest_release] branch after the fetch. *)
Definition parse_latest_release (data : value) : exn + result :=
  let? has_tag := py_in "tag_name" data in
  if negb has_tag
  then inl (GetVersionError "No release found in upstream repository.")
  else
    let? version := getitem data (Key "tag_name") in
    let? url := getitem data (Key "html_url") in
    inr (RRich {| version := version; url := url |}).

(** Lines 189-194: the commits branch after the fetch. *)
Definition parse_commits (data : value) : exn + result :=
  let? date := getpath data [Pos 0; Key "commit"; Key "committer";
                             Key "date"] in
  let? version := date_version_of date in
  let? url := getpath data [Pos 0; Key "html_url"] in
  inr (RRich {| version := version; url := url |}).

Definition get_version_real (name : string)
  (conf keymanager : gmap string value) : M result :=
  let+ repo := conf_item conf "github" in
  let token := resolve_token conf keymanager in
  let use_latest_tag := conf_get conf "use_latest_tag" (VBool false) in
  if truthy use_latest_tag then
    if negb (truthy token)
    then throw (GetVersionError "token not given but it is required")
    else
      let query := conf_get conf "query" (VStr EmptyString) in
      cache_get [repo; query; token] FetchLatestTag get_latest_tag
  else
    let use_latest_release :=
      conf_get conf "use_latest_release" (VBool false) in
    let include_prereleases :=
      conf_get conf "include_prereleases" (VBool false) in
    if truthy use_latest_release && truthy include_prereleases then
      if negb (truthy token)
      then throw (GetVersionError "token not given but it is required")
      else
        cache_get [repo; token] FetchLatestReleaseWithPrereleases
          get_latest_release_with_prereleases
    else
      let br := conf_get conf "branch" VNone in
      let path := conf_get conf "path" VNone in
      let use_max_tag := conf_get conf "use_max_tag" (VBool false) in
      let url :=
        if truthy use_latest_release
        then GITHUB_LATEST_RELEASE (py_str w repo)
        else if truthy use_max_tag
        then GITHUB_MAX_TAG (py_str w repo)
        else commits_url repo br path in
      let hdrs := rest_headers token in
      let* data := cache_get_json url hdrs in
      if truthy use_max_tag then lift (parse_max_tag repo data)
      else if truthy use_latest_release then lift (parse_latest_release data)
      else lift (parse_commits data).

(** [check_ratelimit(exc, name)].  The bare [raise] re-raises the exception
    being handled, which at the only call site is [exc]; [not res] holds
    for [None] only, a response object being true. *)
Definition check_ratelimit (exc : exn) (name : string) : M unit :=
  let+ res := exc_response exc in
  match res with
  | None => throw exc
  | Some res =>
      let+ n :=
        py_int (headers_get res "X-RateLimit-Remaining" (VInt (-1))) in
      if n =? 0 then
        let+ reset := py_int (headers_get res "X-RateLimit-Reset" VNone) in
        let+ at_time := ctime w reset in
        tell (LogError (rate_limit_message at_time) name reset)
      else throw exc
  end.

(** [get_version]: the handler returns nothing, so a suppressed failure
    yields [None]. *)
Definition get_version (name : string)
  (conf keymanager : gmap string value) : M result :=
  try_except (get_version_real name conf keymanager) is_TemporaryError
    (fun e => let* _ := check_ratelimit e name in ret RNone).

End Github.

(** The result built for one reference string. *)
Definition tag_rich (w : World) (repo : value) (s : string) : RichResult :=
  {| version := VStr (tag_name s);
     url := VStr ("https://github.com/" +:+ py_str w repo +:+
                  "/releases/tag/" +:+ tag_name s) |}.

(** ** Notions used in the statements *)

(** The options that select or parametrise the other strategies. *)
Definition other_options : list string :=
  ["use_max_tag"; "use_latest_release"; "include_prereleases"; "branch";
   "path"].

(** A GraphQL fetcher makes at most one call, a POST to the GraphQL
    endpoint. *)
Definition graphql_only (evs : list event) : Prop :=
  evs = [] \/ exists hdrs body, evs = [SessionPost GITHUB_GRAPHQL_URL hdrs body].

(** Either nothing but 'Z's, or a last other character that is a digit. *)
Definition digit_or_none (s : string) : Prop :=
  last_non_Z s = None \/
  exists c, last_non_Z s = Some c /\ PyStr.is_digit c = true.

(** ** Sample collaborators and configurations *)

(** [str()] of a list or dict is never needed on the samples. *)
Definition sample_repr (_ : value) : string := "[...]".
Definition sample_ctime (_ : Z) : exn + string :=
  inr "Thu Jan  1 00:00:00 1970".

(** A world whose transport always answers with the given JSON document. *)
Definition world_json (doc : value) : World := {|
  session_post := fun _ _ _ =>
    inr {| headers := ∅; json := Some doc |};
  cache_get_json_result := fun _ _ => inr doc;
  ctime := sample_ctime;
  repr_compound := sample_repr |}.

(** A world whose transport always fails with the given exception. *)
Definition world_failing (e : exn) : World := {|
  session_post := fun _ _ _ => inl e;
  cache_get_json_result := fun _ _ => inl e;
  ctime := sample_ctime;
  repr_compound := sample_repr |}.

Definition conf_repo : gmap string value := {["github" := VStr "o/r"]}.

(** [use_latest_tag] together with [use_max_tag], and a token. *)
Definition conf_tag_and_max : gmap string value :=
  <["use_max_tag" := VBool true]>
    (<["use_latest_tag" := VBool true]> (<["token" := VStr "tok"]> conf_repo)).

(** A GraphQL answer with one tag. *)
Definition sample_tag_doc : value :=
  VDict [("data", VDict [("repository", VDict [("refs", VDict [("edges",
    VList [VDict [("node", VDict [("name", VStr "v1.0")])]])])])])].

(** Responses of a failed call: rate limit exhausted with and without the
    reset header, an allowance left, and a remaining value that is no
    integer. *)
Definition response_exhausted : Response := {|
  headers := <["X-RateLimit-Reset" := "1700000000"]>
               {["X-RateLimit-Remaining" := "0"]};
  json := None |}.
Definition response_no_reset : Response := {|
  headers := {["X-RateLimit-Remaining" := "0"]};
  json := None |}.
Definition response_not_integer : Response := {|
  headers := {["X-RateLimit-Remaining" := "unknown"]};
  json := None |}.

(** The answer of the tag-refs endpoint with two references. *)
Definition sample_refs_doc : value :=
  VList [VDict [("ref", VStr "refs/tags/v1.2.3"); ("url", VStr "u1")];
         VDict [("ref", VStr "refs/tags/release/2.0")]].

Definition conf_max_tag : gmap string value :=
  <["use_max_tag" := VBool true]> conf_repo.

(** The answer of the latest-release endpoint of the example. *)
Definition sample_release_doc : value :=
  VDict [("tag_name", VStr "v2.0"); ("html_url", VStr "https://x")].

Definition conf_latest_release : gmap string value :=
  <["use_latest_release" := VBool true]> conf_repo.

Definition conf_branch_path : gmap string value :=
  <["path" := VStr "src dir"]> (<["branch" := VStr "release/1.x"]> conf_repo).

(** The answer of the commits endpoint with one commit. *)
Definition sample_commit : value :=
  VDict [("sha", VStr "abc");
         ("commit", VDict [("committer",
            VDict [("name", VStr "dev");
                   ("date", VStr "2023-05-01T12:00:00Z")])]);
         ("html_url", VStr "https://github.com/o/r/commit/abc")].

Definition accept_headers : gmap string string :=
  {["Accept" := "application/vnd.github.quicksilver-preview+json"]}.

Definition failure (res : Response) : exn :=
  TemporaryError 403 "rate limit exceeded" (Some res).

(** ** Notions used for the remaining behaviour of the module *)

Fixpoint count_char (c : ascii) (s : string) : nat :=
  match s with
  | EmptyString => 0%nat
  | String x r => ((if Ascii.eqb x c then 1 else 0) + count_char c r)%nat
  end.

(** The events that reach the network: a POST of the session or a GET
    through the cache. *)
Definition is_request (ev : event) : bool :=
  match ev with
  | SessionPost _ _ _ | CacheGetJson _ _ => true
  | CacheGet _ _ | LogError _ _ _ => false
  end.

Definition is_log (ev : event) : bool :=
  match ev with
  | LogError _ _ _ => true
  | _ => false
  end.

(** The characters [quote_plus] can produce. *)
Definition url_safe_char (c : ascii) : bool :=
  PyStr.always_safe c || Ascii.eqb c "+" || Ascii.eqb c "%".

(** A timestamp [YYYY-MM-DDTHH:MM:SSZ] and the token [YYYYMMDD.HHMMSS] made
    of the same fourteen characters. *)
Definition timestamp (y1 y2 y3 y4 m1 m2 d1 d2 h1 h2 n1 n2 s1 s2 : ascii)
  : string :=
  String y1 (String y2 (String y3 (String y4 (String "-"
  (String m1 (String m2 (String "-" (String d1 (String d2 (String "T"
  (String h1 (String h2 (String ":" (String n1 (String n2 (String ":"
  (String s1 (String s2 "Z")))))))))))))))))).

Definition version_token (y1 y2 y3 y4 m1 m2 d1 d2 h1 h2 n1 n2 s1 s2 : ascii)
  : string :=
  String y1 (String y2 (String y3 (String y4
  (String m1 (String m2 (String d1 (String d2 (String "."
  (String h1 (String h2 (String n1 (String n2
  (String s1 (String s2 EmptyString)))))))))))))).

(** A GraphQL answer with one release, and one with no edges. *)
Definition sample_release_edges_doc : value :=
  VDict [("data", VDict [("repository", VDict [("releases", VDict [("edges",
    VList [VDict [("node", VDict [("name", VStr "v3.0-rc1");
                                  ("url", VStr "https://x/rc1")])]])])])])].

Definition sample_no_edges_doc : value :=
  VDict [("data", VDict [("repository", VDict [
    ("refs", VDict [("edges", VList [])]);
    ("releases", VDict [("edges", VList [])])])])].

(** A tag-refs answer whose second element has no [ref] field. *)
Definition sample_broken_refs : list value :=
  [VDict [("ref", VStr "refs/tags/v1")]; VDict [("url", VStr "u")];
   VDict [("ref", VStr "refs/tags/v2")]].

(** A commit whose committer date is [null]. *)
Definition sample_commit_no_date : value :=
  VDict [("commit", VDict [("committer", VDict [("date", VNone)])])].

Definition conf_prereleases : gmap string value :=
  <["include_prereleases" := VBool true]>
    (<["use_latest_release" := VBool true]>
       (<["token" := VStr "tok"]> conf_repo)).

(** [use_latest_release] together with [use_max_tag]. *)
Definition conf_release_and_max : gmap string value :=
  <["use_max_tag" := VBool true]> conf_latest_release.

(** An entry whose own token is the empty string, and a key manager that
    holds a key. *)
Definition conf_empty_token : gmap string value :=
  <["use_latest_tag" := VBool true]>
    (<["token" := VStr EmptyString]> conf_repo).
Definition keys_github : gmap string value := {["github" := VStr "secret"]}.

(** ** Proof support *)

Example rstrip_ex : PyStr.rstrip "Z" "12:00ZZ" = "12:00".
Proof. reflexivity. Qed.
Example replace_ex : PyStr.replace "-" EmptyString "2023-05-01" = "20230501".
Proof. reflexivity. Qed.
Example replace_ex2 : PyStr.replace "aa" "b" "aaaxaa" = "baxb".
Proof. reflexivity. Qed.
Example split_ex : PyStr.split "/" (Some 2%nat) "refs/tags/a/b" = Some ["refs"; "tags"; "a/b"].
Proof. reflexivity. Qed.
Example split_ex2 : PyStr.split "/" None "a/b/" = Some ["a"; "b"; EmptyString].
Proof. reflexivity. Qed.
Example int_ex : PyStr.int_of_string " -1_0 " = Some (-10).
Proof. reflexivity. Qed.
Example int_ex2 : PyStr.int_of_string "1__0" = None.
Proof. reflexivity. Qed.
Example quote_ex : PyStr.quote_plus "a b/c" = "a+b%2Fc".
Proof. reflexivity. Qed.

Ltac run :=
  unfold get_version, try_except, get_version_real, cache_get, cache_get_json,
    post, bind, lift, throw, ret, tell, conf_item, ebind in *.

(** ** C3: strategies that need a token fail before any call *)

(** C3. For every configuration that names its repository and selects the
    latest-tag strategy ([use_latest_tag] true), or sets both
    [use_latest_release] and [include_prereleases], when the token is empty
    or absent after the config-then-keymanager lookup, resolution fails with
    [GetVersionError "token not given but it is required"] and the trace of
    cache and transport calls is left as it was: no call is attempted.  The
    top-level [get_version] reports the same. *)
Theorem C3_token_required (w : World) (name : string)
    (conf keymanager : gmap string value) (repo : value) (tr : list event) :
  conf !! "github" = Some repo ->
  truthy (resolve_token conf keymanager) = false ->
  truthy (conf_get conf "use_latest_tag" (VBool false)) = true \/
  (truthy (conf_get conf "use_latest_release" (VBool false)) = true /\
   truthy (conf_get conf "include_prereleases" (VBool false)) = true) ->
  get_version_real w name conf keymanager tr =
    (inl (GetVersionError "token not given but it is required"), tr) /\
  get_version w name conf keymanager tr =
    (inl (GetVersionError "token not given but it is required"), tr).
Proof.
  intros Hrepo Htok Hflags.
  assert (Hreal : get_version_real w name conf keymanager tr =
    (inl (GetVersionError "token not given but it is required"), tr)).
  { run. rewrite Hrepo, Htok. simpl.
    destruct (truthy (conf_get conf "use_latest_tag" (VBool false))) eqn:Et;
      [reflexivity|].
    destruct Hflags as [Hf | [Hr Hp]]; [discriminate|].
    rewrite Hr, Hp. reflexivity. }
  split; [exact Hreal|].
  unfold get_version, try_except. rewrite Hreal. reflexivity.
Qed.

Lemma C3_token_required_witness :
  get_version_real (world_json VNone) "proj"
    (<["use_latest_tag" := VBool true]> conf_repo) ∅ [] =
    (inl (GetVersionError "token not given but it is required"), []) /\
  get_version (world_json VNone) "proj"
    (<["use_latest_tag" := VBool true]> conf_repo) ∅ [] =
    (inl (GetVersionError "token not given but it is required"), []).
Proof.
  apply (C3_token_required (world_json VNone) "proj"
           (<["use_latest_tag" := VBool true]> conf_repo) ∅ (VStr "o/r") []).
  - vm_compute. reflexivity.
  - vm_compute. reflexivity.
  - left. vm_compute. reflexivity.
Defined.

(** ** C1: strategy precedence *)


Lemma get_latest_tag_events (w : World) key tr :
  exists out evs,
    get_latest_tag w key tr = (out, tr ++ evs) /\ graphql_only evs.
Proof.
  unfold get_latest_tag.
  destruct key as [|repo [|query [|token [|? ?]]]];
    try (eexists _, []; rewrite app_nil_r; split; [reflexivity | by left]).
  run.
  destruct (method_split repo "/" None) as [e|parts];
    [eexists _, []; rewrite app_nil_r; split; [reflexivity | by left]|].
  destruct (unpack2 parts) as [e|names];
    [eexists _, []; rewrite app_nil_r; split; [reflexivity | by left]|].
  simpl.
  match goal with
  | |- context [session_post w ?u ?h ?b] =>
      assert (Hpost : graphql_only [SessionPost u h b])
        by (right; eauto);
      destruct (session_post w u h b) as [e|res]
  end; [eauto|].
  destruct (response_json res) as [e|j]; [eauto|].
  match goal with
  | |- context [getpath j ?p] => destruct (getpath j p) as [e|refs]
  end; [eauto|].
  destruct (negb (truthy refs)); [eauto|].
  match goal with
  | |- context [getpath refs ?p] => destruct (getpath refs p) as [e|version]
  end; eauto.
Qed.

(** C1. Whenever [use_latest_tag] is true, every other strategy option
    ([use_max_tag], [use_latest_release], [include_prereleases], [branch],
    [path]) may be set to any value without changing the resolution, and with
    a token the resolution is the latest-tag fetcher run through the cache on
    the key (repo, query, token): its only transport call is a POST to the
    GraphQL endpoint, and no REST request or log entry is made.  Otherwise,
    when [use_latest_release] and [include_prereleases] are both true, the
    resolution is the release fetcher run on the key (repo, token).
    Otherwise exactly one REST request is made, to the latest-release URL if
    [use_latest_release] is true, else to the tag-refs URL if [use_max_tag]
    is true, else to the commits URL. *)
Theorem C1_strategy_precedence (w : World) (name : string)
    (conf keymanager : gmap string value) (repo : value) (tr : list event) :
  conf !! "github" = Some repo ->
  let token := resolve_token conf keymanager in
  let flag k := truthy (conf_get conf k (VBool false)) in
  (flag "use_latest_tag" = true ->
     (forall k v, In k other_options ->
        get_version_real w name (<[k := v]> conf) keymanager tr =
        get_version_real w name conf keymanager tr) /\
     (truthy token = true ->
        let key := [repo; conf_get conf "query" (VStr EmptyString); token] in
        get_version_real w name conf keymanager tr =
          get_latest_tag w key (tr ++ [CacheGet key FetchLatestTag]) /\
        exists out evs,
          get_version_real w name conf keymanager tr =
            (out, tr ++ CacheGet key FetchLatestTag :: evs) /\
          graphql_only evs)) /\
  (flag "use_latest_tag" = false ->
   flag "use_latest_release" = true -> flag "include_prereleases" = true ->
   truthy token = true ->
     get_version_real w name conf keymanager tr =
       get_latest_release_with_prereleases w [repo; token]
         (tr ++ [CacheGet [repo; token] FetchLatestReleaseWithPrereleases])) /\
  (flag "use_latest_tag" = false ->
   flag "use_latest_release" && flag "include_prereleases" = false ->
     exists out,
       get_version_real w name conf keymanager tr =
         (out,
          tr ++ [CacheGetJson
                   (if flag "use_latest_release"
                    then GITHUB_LATEST_RELEASE (py_str w repo)
                    else if flag "use_max_tag"
                    then GITHUB_MAX_TAG (py_str w repo)
                    else commits_url w repo (conf_get conf "branch" VNone)
                           (conf_get conf "path" VNone))
                   (rest_headers w token)])).
Proof.
  intros Hrepo token flag. subst flag. cbv beta.
  split; [|split].
  - intros Hlt. split.
    + intros k v Hk. run. unfold resolve_token, conf_get in *.
      assert (Hne : forall k', In k' ["github"; "token"; "use_latest_tag"; "query"] ->
                 <[k := v]> conf !! k' = conf !! k').
      { intros k' Hk'. apply lookup_insert_ne. intros ->.
        simpl in Hk, Hk'. intuition congruence. }
      rewrite !Hne by (simpl; tauto).
      rewrite Hrepo, Hlt. reflexivity.
    + intros Htok key.
      assert (Heq : get_version_real w name conf keymanager tr =
                get_latest_tag w key (tr ++ [CacheGet key FetchLatestTag])).
      { run. rewrite Hrepo, Hlt. fold token. rewrite Htok. reflexivity. }
      split; [exact Heq|].
      destruct (get_latest_tag_events w key (tr ++ [CacheGet key FetchLatestTag]))
        as (out & evs & Hrun & Hevs).
      exists out, evs. rewrite Heq, Hrun, <- app_assoc. done.
  - intros Hlt Hr Hp Htok. run. rewrite Hrepo, Hlt, Hr, Hp.
    fold token. rewrite Htok. reflexivity.
  - intros Hlt Hrp. run. rewrite Hrepo, Hlt, Hrp. fold token. simpl.
    match goal with
    | |- context [cache_get_json_result w ?u ?h] =>
        destruct (cache_get_json_result w u h) as [e|data]
    end; [eauto|].
    destruct (truthy (conf_get conf "use_max_tag" (VBool false))); [eauto|].
    destruct (truthy (conf_get conf "use_latest_release" (VBool false))); eauto.
Qed.

Lemma C1_strategy_precedence_witness :
  let w := world_json sample_tag_doc in
  let key := [VStr "o/r"; VStr EmptyString; VStr "tok"] in
  get_version_real w "proj" conf_tag_and_max ∅ [] =
    get_latest_tag w key [CacheGet key FetchLatestTag] /\
  fst (get_version_real w "proj" conf_tag_and_max ∅ []) =
    inr (RRich {| version := VStr "v1.0";
                  url := VStr "https://github.com/o/r/releases/tag/v1.0" |}).
Proof.
  intros w key.
  destruct (C1_strategy_precedence w "proj" conf_tag_and_max ∅ (VStr "o/r") [])
    as [Hfirst _]; [vm_compute; reflexivity|].
  destruct Hfirst as [_ Hrun]; [vm_compute; reflexivity|].
  destruct Hrun as [Heq _]; [vm_compute; reflexivity|].
  split; [exact Heq|].
  rewrite Heq. vm_compute. reflexivity.
Defined.

(** ** C2 and C10: the rate-limit classifier *)


Lemma check_ratelimit_no_response (w : World) c m name tr :
  check_ratelimit w (TemporaryError c m None) name tr =
    (inl (TemporaryError c m None), tr).
Proof. reflexivity. Qed.

Lemma check_ratelimit_exhausted (w : World) c m res name tr reset at_time :
  py_int (headers_get res "X-RateLimit-Remaining" (VInt (-1))) = inr 0 ->
  py_int (headers_get res "X-RateLimit-Reset" VNone) = inr reset ->
  ctime w reset = inr at_time ->
  check_ratelimit w (TemporaryError c m (Some res)) name tr =
    (inr tt, tr ++ [LogError (rate_limit_message at_time) name reset]).
Proof.
  intros Hn Hreset Htime. unfold check_ratelimit. run. simpl.
  rewrite Hn. simpl. rewrite Hreset, Htime. reflexivity.
Qed.

Lemma check_ratelimit_other (w : World) c m res name tr n :
  py_int (headers_get res "X-RateLimit-Remaining" (VInt (-1))) = inr n ->
  n <> 0 ->
  check_ratelimit w (TemporaryError c m (Some res)) name tr =
    (inl (TemporaryError c m (Some res)), tr).
Proof.
  intros Hn Hne. unfold check_ratelimit. run. simpl.
  rewrite Hn. destruct (Z.eqb_spec n 0); [contradiction | reflexivity].
Qed.

Lemma remaining_absent (res : Response) :
  headers res !! "X-RateLimit-Remaining" = None ->
  py_int (headers_get res "X-RateLimit-Remaining" (VInt (-1))) = inr (-1).
Proof. unfold headers_get. intros ->. reflexivity. Qed.

Lemma get_version_hands_over (w : World) name conf keymanager tr tr' c m r :
  get_version_real w name conf keymanager tr =
    (inl (TemporaryError c m r), tr') ->
  get_version w name conf keymanager tr =
    (let* _ := check_ratelimit w (TemporaryError c m r) name in ret RNone) tr'.
Proof. intros H. unfold get_version, try_except. rewrite H. reflexivity. Qed.

(** C2, as the code has it.  When [get_version_real] raises a
    [TemporaryError], [get_version] runs [check_ratelimit] on it once, on the
    trace the failed resolution left.  Without a response the failure is
    re-raised unchanged.  When [X-RateLimit-Remaining] converts to the
    integer 0, and [X-RateLimit-Reset] is present and converts to an integer
    that [time.ctime] renders, exactly one error entry with the project name
    and the reset time is logged and [get_version] returns [None].  When
    [X-RateLimit-Remaining] is absent or converts to a non-zero integer, the
    failure is re-raised unchanged and nothing is logged. *)
Theorem C2_ratelimit_classifier (w : World) (name : string)
    (conf keymanager : gmap string value) (tr tr' : list event)
    (c : Z) (m : string) (r : option Response) :
  get_version_real w name conf keymanager tr =
    (inl (TemporaryError c m r), tr') ->
  let e := TemporaryError c m r in
  let remaining res :=
    py_int (headers_get res "X-RateLimit-Remaining" (VInt (-1))) in
  get_version w name conf keymanager tr =
    (let* _ := check_ratelimit w e name in ret RNone) tr' /\
  (r = None -> get_version w name conf keymanager tr = (inl e, tr')) /\
  (forall res reset at_time,
     r = Some res -> remaining res = inr 0 ->
     py_int (headers_get res "X-RateLimit-Reset" VNone) = inr reset ->
     ctime w reset = inr at_time ->
     get_version w name conf keymanager tr =
       (inr RNone,
        tr' ++ [LogError (rate_limit_message at_time) name reset])) /\
  (forall res n,
     r = Some res -> remaining res = inr n -> n <> 0 ->
     get_version w name conf keymanager tr = (inl e, tr')) /\
  (forall res,
     r = Some res -> headers res !! "X-RateLimit-Remaining" = None ->
     get_version w name conf keymanager tr = (inl e, tr')).
Proof.
  intros Hreal e remaining. subst e remaining. cbv beta.
  pose proof (get_version_hands_over _ _ _ _ _ _ _ _ _ Hreal) as Hover.
  split; [exact Hover|]. rewrite Hover. unfold bind.
  repeat split.
  - intros ->. rewrite check_ratelimit_no_response. reflexivity.
  - intros res reset at_time -> Hn Hreset Htime.
    rewrite (check_ratelimit_exhausted _ _ _ _ _ _ _ _ Hn Hreset Htime).
    reflexivity.
  - intros res n -> Hn Hne.
    rewrite (check_ratelimit_other _ _ _ _ _ _ _ Hn Hne). reflexivity.
  - intros res -> Habs.
    rewrite (check_ratelimit_other _ _ _ _ _ _ (-1) (remaining_absent _ Habs));
      [reflexivity | lia].
Qed.

Lemma C2_ratelimit_classifier_witness :
  get_version (world_failing (failure response_exhausted)) "proj" conf_repo
    ∅ [] =
    (inr RNone,
     [CacheGetJson "https://api.github.com/repos/o/r/commits?" accept_headers;
      LogError (rate_limit_message "Thu Jan  1 00:00:00 1970") "proj"
        1700000000]).
Proof.
  destruct (C2_ratelimit_classifier
              (world_failing (failure response_exhausted)) "proj" conf_repo ∅
              []
              [CacheGetJson "https://api.github.com/repos/o/r/commits?"
                 accept_headers]
              403 "rate limit exceeded" (Some response_exhausted))
    as (_ & _ & Hlog & _); [vm_compute; reflexivity|].
  apply (Hlog response_exhausted 1700000000 "Thu Jan  1 00:00:00 1970");
    vm_compute; reflexivity.
Defined.

(** C2 as stated fails twice.  With [X-RateLimit-Remaining: 0] and no
    [X-RateLimit-Reset] header nothing is logged and a [TypeError] escapes;
    with a remaining value that is no integer a [ValueError] escapes instead
    of the original failure. *)
Lemma C2_counterexample :
  get_version (world_failing (failure response_no_reset)) "proj" conf_repo
    ∅ [] =
    (inl TypeError,
     [CacheGetJson "https://api.github.com/repos/o/r/commits?"
        accept_headers]) /\
  get_version (world_failing (failure response_not_integer)) "proj" conf_repo
    ∅ [] =
    (inl ValueError,
     [CacheGetJson "https://api.github.com/repos/o/r/commits?"
        accept_headers]).
Proof. split; vm_compute; reflexivity. Qed.

(** C10. With [X-RateLimit-Remaining] equal to 0, [check_ratelimit] converts
    [X-RateLimit-Reset] with no default: if the header is absent the
    conversion raises [TypeError], nothing is logged, and through
    [get_version] that error escapes in place of the failure; so whenever the
    classifier returns normally (log and suppress) the header is present. *)
Theorem C10_reset_header_required (w : World) (c : Z) (m : string)
    (res : Response) (name : string) (tr : list event) :
  py_int (headers_get res "X-RateLimit-Remaining" (VInt (-1))) = inr 0 ->
  let e := TemporaryError c m (Some res) in
  (headers res !! "X-RateLimit-Reset" = None ->
     check_ratelimit w e name tr = (inl TypeError, tr) /\
     forall conf keymanager tr0,
       get_version_real w name conf keymanager tr0 = (inl e, tr) ->
       get_version w name conf keymanager tr0 = (inl TypeError, tr)) /\
  (forall tr', check_ratelimit w e name tr = (inr tt, tr') ->
     is_Some (headers res !! "X-RateLimit-Reset")).
Proof.
  intros Hn e. subst e.
  assert (Habsent : headers res !! "X-RateLimit-Reset" = None ->
            check_ratelimit w (TemporaryError c m (Some res)) name tr =
              (inl TypeError, tr)).
  { intros Hnone. unfold check_ratelimit. run. simpl. rewrite Hn. simpl.
    unfold headers_get. rewrite Hnone. reflexivity. }
  split.
  - intros Hnone. split; [auto|].
    intros conf keymanager tr0 Hreal.
    rewrite (get_version_hands_over _ _ _ _ _ _ _ _ _ Hreal).
    unfold bind. rewrite (Habsent Hnone). reflexivity.
  - intros tr' Hok.
    destruct (headers res !! "X-RateLimit-Reset") as [s|] eqn:Hreset;
      [eauto|].
    rewrite (Habsent eq_refl) in Hok. discriminate.
Qed.

Lemma C10_reset_header_required_witness :
  check_ratelimit (world_failing (failure response_no_reset))
    (failure response_no_reset) "proj" [] = (inl TypeError, []).
Proof.
  destruct (C10_reset_header_required
              (world_failing (failure response_no_reset)) 403
              "rate limit exceeded" response_no_reset "proj" [])
    as [Habsent _]; [vm_compute; reflexivity|].
  apply Habsent. vm_compute. reflexivity.
Defined.

(** ** C4: the max-tag strategy *)

Section Split.

Variable sep : string.

Lemma split_from_exhausted s :
  PyStr.split_from sep s 0 (Some 0%nat) = [s].
Proof.
  induction s as [|c s IH]; [reflexivity|].
  simpl. rewrite IH. reflexivity.
Qed.

Lemma split_from_nonempty s k budget :
  PyStr.split_from sep s k budget <> [].
Proof.
  revert k budget. induction s as [|c s IH]; intros k budget; [done|].
  simpl. destruct k; [|apply IH].
  match goal with
  | |- context [if ?b then _ else _] => destruct b
  end; [done|].
  destruct (PyStr.split_from sep s 0 budget); done.
Qed.

(** [maxsplit = n] gives at most [n + 1] parts. *)
Lemma split_from_length s k n :
  (length (PyStr.split_from sep s k (Some n)) <= S n)%nat.
Proof.
  revert k n. induction s as [|c s IH]; intros k n; [simpl; lia|].
  simpl. destruct k; [|apply IH].
  destruct n as [|n].
  - simpl. rewrite split_from_exhausted. simpl. lia.
  - match goal with
    | |- context [if ?b then _ else _] => destruct b
    end.
    + simpl. specialize (IH (String.length sep - 1)%nat n). lia.
    + specialize (IH 0%nat (S n)).
      destruct (PyStr.split_from sep s 0 (Some (S n))); simpl in *; lia.
Qed.

End Split.

Lemma nth_error_last {A} (l : list A) (d : A) :
  l <> [] -> nth_error l (Nat.pred (length l)) = Some (List.last l d).
Proof.
  induction l as [|a l IH]; [done|]. intros _.
  destruct l as [|b l]; [reflexivity|].
  change (nth_error (b :: l) (Nat.pred (length (b :: l))) =
          Some (List.last (b :: l) d)).
  apply IH. done.
Qed.

Lemma nth_item_last {A} (l : list A) (d : A) :
  l <> [] -> nth_item l (-1) = inr (List.last l d).
Proof.
  intros Hl. unfold nth_item.
  assert (Hlen : (0 < length l)%nat) by (destruct l; [done | simpl; lia]).
  change (-1 <? 0) with true. cbv iota.
  destruct (Z.ltb_spec (-1 + Z.of_nat (length l)) 0); [lia|].
  destruct (Z.leb_spec (Z.of_nat (length l)) (-1 + Z.of_nat (length l)));
    [lia|]. simpl.
  replace (Z.to_nat (-1 + Z.of_nat (length l))) with (Nat.pred (length l))
    by lia.
  rewrite (nth_error_last l d Hl). reflexivity.
Qed.

Lemma tag_of_ref_string (ref : value) (s : string) :
  getitem ref (Key "ref") = inr (VStr s) -> tag_of_ref ref = inr (tag_name s).
Proof.
  intros H. unfold tag_of_ref, ebind. rewrite H. simpl.
  apply nth_item_last, split_from_nonempty.
Qed.

Lemma prefix_empty (s : string) : String.prefix EmptyString s = true.
Proof. destruct s; reflexivity. Qed.

Lemma tag_name_strips_prefix (v : string) :
  tag_name ("refs/tags/" +:+ v) = v.
Proof.
  unfold tag_name. cbv [String.append]. simpl.
  rewrite split_from_exhausted, prefix_empty. reflexivity.
Qed.

Lemma comprehension_tags (w : World) (repo : value) elems refs :
  Forall2 (fun el s => getitem el (Key "ref") = inr (VStr s)) elems refs ->
  comprehension (tag_result w repo) elems = inr (map (tag_rich w repo) refs).
Proof.
  induction 1 as [|el s elems refs Hel _ IH]; [reflexivity|].
  simpl. unfold tag_result at 1, ebind.
  rewrite (tag_of_ref_string _ _ Hel). fold (tag_rich w repo s).
  unfold ebind in IH. rewrite IH. reflexivity.
Qed.

(** C4. Under the max-tag strategy ([use_latest_tag] and
    [use_latest_release] false, [use_max_tag] true), when the tag-refs
    endpoint answers an array whose elements carry the reference strings
    [refs], the resolution makes that one request and returns, in the
    array's order, one result per element: its version is the last of the at
    most three parts of the reference split on '/', and its url is
    https://github.com/{repo}/releases/tag/{version}.  An empty array raises
    [GetVersionError "No tag found in upstream repository."].  A split never
    gives more than three parts, and "refs/tags/" followed by [v] gives [v],
    so "refs/tags/v1.2.3" gives "v1.2.3". *)
Theorem C4_max_tag (w : World) (name : string)
    (conf keymanager : gmap string value) (repo : value) (tr : list event)
    (elems : list value) (refs : list string) :
  conf !! "github" = Some repo ->
  truthy (conf_get conf "use_latest_tag" (VBool false)) = false ->
  truthy (conf_get conf "use_latest_release" (VBool false)) = false ->
  truthy (conf_get conf "use_max_tag" (VBool false)) = true ->
  let hdrs := rest_headers w (resolve_token conf keymanager) in
  cache_get_json_result w (GITHUB_MAX_TAG (py_str w repo)) hdrs =
    inr (VList elems) ->
  Forall2 (fun el s => getitem el (Key "ref") = inr (VStr s)) elems refs ->
  get_version_real w name conf keymanager tr =
    (match refs with
     | [] => inl (GetVersionError "No tag found in upstream repository.")
     | _ => inr (RList (map (tag_rich w repo) refs))
     end,
     tr ++ [CacheGetJson (GITHUB_MAX_TAG (py_str w repo)) hdrs]) /\
  (forall s, (length (PyStr.split_from "/" s 0 (Some 2%nat)) <= 3)%nat) /\
  (forall v, tag_name ("refs/tags/" +:+ v) = v) /\
  tag_name "refs/tags/v1.2.3" = "v1.2.3".
Proof.
  intros Hrepo Hlt Hr Hmax hdrs Hdata Hrefs.
  split; [|split; [|split]].
  - run. rewrite Hrepo, Hlt, Hr, Hmax. simpl. fold hdrs. rewrite Hdata.
    unfold parse_max_tag, ebind. simpl.
    pose proof (comprehension_tags w repo _ _ Hrefs) as Hc.
    unfold ebind in Hc. rewrite Hc.
    destruct Hrefs; reflexivity.
  - intros s. apply split_from_length.
  - apply tag_name_strips_prefix.
  - reflexivity.
Qed.

Lemma C4_max_tag_witness :
  get_version_real (world_json sample_refs_doc) "proj" conf_max_tag ∅ [] =
    (inr (RList
            [{| version := VStr "v1.2.3";
                url := VStr "https://github.com/o/r/releases/tag/v1.2.3" |};
             {| version := VStr "release/2.0";
                url := VStr "https://github.com/o/r/releases/tag/release/2.0"
             |}]),
     [CacheGetJson "https://api.github.com/repos/o/r/git/refs/tags"
        accept_headers]).
Proof.
  destruct (C4_max_tag (world_json sample_refs_doc) "proj" conf_max_tag ∅
              (VStr "o/r") []
              [VDict [("ref", VStr "refs/tags/v1.2.3"); ("url", VStr "u1")];
               VDict [("ref", VStr "refs/tags/release/2.0")]]
              ["refs/tags/v1.2.3"; "refs/tags/release/2.0"])
    as [Hrun _];
    [vm_compute; reflexivity | vm_compute; reflexivity
    | vm_compute; reflexivity | vm_compute; reflexivity
    | vm_compute; reflexivity | repeat constructor |].
  rewrite Hrun. vm_compute. reflexivity.
Defined.

(** ** C5: the REST latest-release strategy *)

Lemma parse_latest_release_object fields :
  parse_latest_release (VDict fields) =
    match assoc "tag_name" fields with
    | None => inl (GetVersionError "No release found in upstream repository.")
    | Some tag =>
        match assoc "html_url" fields with
        | None => inl (KeyError (Key "html_url"))
        | Some html => inr (RRich {| version := tag; url := html |})
        end
    end.
Proof.
  unfold parse_latest_release, ebind. simpl.
  destruct (assoc "tag_name" fields); [|reflexivity]. simpl.
  destruct (assoc "html_url" fields); reflexivity.
Qed.

(** Where the flags agree ([use_latest_tag], [include_prereleases] and
    [use_max_tag] false, [use_latest_release] true) and the latest-release
    endpoint answers a JSON object, the resolution raises [GetVersionError
    "No release found in upstream repository."] if and only if the object
    has no [tag_name] field; and when [tag_name] and [html_url] are present
    the result carries both values as they are. *)
Lemma latest_release_without_max_tag (w : World) (name : string)
    (conf keymanager : gmap string value) (repo : value) (tr : list event)
    (fields : list (string * value)) :
  conf !! "github" = Some repo ->
  truthy (conf_get conf "use_latest_tag" (VBool false)) = false ->
  truthy (conf_get conf "use_latest_release" (VBool false)) = true ->
  truthy (conf_get conf "include_prereleases" (VBool false)) = false ->
  truthy (conf_get conf "use_max_tag" (VBool false)) = false ->
  cache_get_json_result w (GITHUB_LATEST_RELEASE (py_str w repo))
    (rest_headers w (resolve_token conf keymanager)) = inr (VDict fields) ->
  let out := fst (get_version_real w name conf keymanager tr) in
  (out = inl (GetVersionError "No release found in upstream repository.") <->
   assoc "tag_name" fields = None) /\
  (forall tag html,
     assoc "tag_name" fields = Some tag ->
     assoc "html_url" fields = Some html ->
     out = inr (RRich {| version := tag; url := html |})).
Proof.
  intros Hrepo Hlt Hr Hp Hmax Hdata out.
  assert (Hout : out = parse_latest_release (VDict fields)).
  { subst out. run. rewrite Hrepo, Hlt, Hr, Hp, Hmax. simpl.
    rewrite Hdata. reflexivity. }
  rewrite Hout, parse_latest_release_object. split.
  - destruct (assoc "tag_name" fields) as [tag|]; [|done].
    destruct (assoc "html_url" fields); split; discriminate.
  - intros tag html -> ->. reflexivity.
Qed.

Lemma latest_release_without_max_tag_witness :
  fst (get_version_real (world_json sample_release_doc) "proj"
         conf_latest_release ∅ []) =
    inr (RRich {| version := VStr "v2.0"; url := VStr "https://x" |}).
Proof.
  destruct (latest_release_without_max_tag (world_json sample_release_doc)
              "proj"
              conf_latest_release ∅ (VStr "o/r") []
              [("tag_name", VStr "v2.0"); ("html_url", VStr "https://x")])
    as [_ Hok];
    [vm_compute; reflexivity | vm_compute; reflexivity
    | vm_compute; reflexivity | vm_compute; reflexivity
    | vm_compute; reflexivity | vm_compute; reflexivity |].
  apply Hok; reflexivity.
Defined.

(** C5. The claim fails on the code where [use_latest_release] and
    [use_max_tag] are both true.  The latest-release URL is requested, as
    the latest-release strategy demands, but the answer is then read by the
    max-tag branch, which is tested first after the fetch: the payload with
    [tag_name] "v2.0" and [html_url] "https://x" ends in [TypeError] and not
    in the result made of the two values, and a payload without [tag_name]
    (the empty object) is reported as "No tag found in upstream
    repository." and not as "No release found in upstream repository.". *)
Theorem C5_release_parsed_as_tags :
  get_version_real (world_json sample_release_doc) "proj"
    conf_release_and_max ∅ [] =
    (inl TypeError,
     [CacheGetJson "https://api.github.com/repos/o/r/releases/latest"
        accept_headers]) /\
  fst (get_version_real (world_json sample_release_doc) "proj"
         conf_release_and_max ∅ []) <>
    inr (RRich {| version := VStr "v2.0"; url := VStr "https://x" |}) /\
  get_version_real (world_json (VDict [])) "proj" conf_release_and_max ∅ [] =
    (inl (GetVersionError "No tag found in upstream repository."),
     [CacheGetJson "https://api.github.com/repos/o/r/releases/latest"
        accept_headers]).
Proof.
  split; [vm_compute; reflexivity|].
  split; [vm_compute; discriminate | vm_compute; reflexivity].
Qed.

(** ** The commits strategy: C6, C7, C8, C9 *)

Lemma commits_run (w : World) name (conf keymanager : gmap string value)
    repo tr :
  conf !! "github" = Some repo ->
  truthy (conf_get conf "use_latest_tag" (VBool false)) = false ->
  truthy (conf_get conf "use_latest_release" (VBool false)) = false ->
  truthy (conf_get conf "use_max_tag" (VBool false)) = false ->
  let url := commits_url w repo (conf_get conf "branch" VNone)
               (conf_get conf "path" VNone) in
  let hdrs := rest_headers w (resolve_token conf keymanager) in
  get_version_real w name conf keymanager tr =
    (let? data := cache_get_json_result w url hdrs in parse_commits data,
     tr ++ [CacheGetJson url hdrs]).
Proof.
  intros Hrepo Hlt Hr Hmax url hdrs. run.
  rewrite Hrepo, Hlt, Hr, Hmax. simpl. fold url hdrs.
  destruct (cache_get_json_result w url hdrs); reflexivity.
Qed.

(** C9. Under the commits strategy, when the endpoint answers the empty
    array, the parser's [data[0]] raises [IndexError]: the resolution fails
    with it after its one request, and not with a [GetVersionError]. *)
Theorem C9_empty_commits (w : World) (name : string)
    (conf keymanager : gmap string value) (repo : value) (tr : list event) :
  conf !! "github" = Some repo ->
  truthy (conf_get conf "use_latest_tag" (VBool false)) = false ->
  truthy (conf_get conf "use_latest_release" (VBool false)) = false ->
  truthy (conf_get conf "use_max_tag" (VBool false)) = false ->
  let url := commits_url w repo (conf_get conf "branch" VNone)
               (conf_get conf "path" VNone) in
  let hdrs := rest_headers w (resolve_token conf keymanager) in
  cache_get_json_result w url hdrs = inr (VList []) ->
  get_version_real w name conf keymanager tr =
    (inl IndexError, tr ++ [CacheGetJson url hdrs]) /\
  get_version w name conf keymanager tr =
    (inl IndexError, tr ++ [CacheGetJson url hdrs]) /\
  forall msg, fst (get_version_real w name conf keymanager tr) <>
              inl (GetVersionError msg).
Proof.
  intros Hrepo Hlt Hr Hmax url hdrs Hdata.
  pose proof (commits_run w name conf keymanager repo tr Hrepo Hlt Hr Hmax)
    as Hrun. cbv zeta in Hrun. fold url hdrs in Hrun.
  rewrite Hdata in Hrun. change (ebind _ _) with
    (@inl exn result IndexError) in Hrun.
  split; [exact Hrun|]. split.
  - unfold get_version, try_except. rewrite Hrun. reflexivity.
  - intros msg. rewrite Hrun. discriminate.
Qed.

Lemma C9_empty_commits_witness :
  get_version_real (world_json (VList [])) "proj" conf_repo ∅ [] =
    (inl IndexError,
     [CacheGetJson "https://api.github.com/repos/o/r/commits?"
        accept_headers]).
Proof.
  destruct (C9_empty_commits (world_json (VList [])) "proj" conf_repo ∅
              (VStr "o/r") [])
    as [Hrun _];
    [vm_compute; reflexivity | vm_compute; reflexivity
    | vm_compute; reflexivity | vm_compute; reflexivity
    | vm_compute; reflexivity |].
  rewrite Hrun. vm_compute. reflexivity.
Defined.

Lemma string_app_assoc (a b c : string) : (a +:+ b) +:+ c = a +:+ b +:+ c.
Proof.
  induction a as [|x a IH]; [reflexivity|].
  change (String x ((a +:+ b) +:+ c) = String x (a +:+ b +:+ c)).
  rewrite IH. reflexivity.
Qed.

(** C8, as the code has it.  Under the commits strategy the one request goes
    to https://api.github.com/repos/{repo}/commits followed by '?' and the
    url-encoded parameters: [sha] is a parameter exactly when [branch] is set
    to a true (non-empty) value, [path] exactly when [path] is, in that
    order.  With neither, the URL is the commits path followed by a bare
    '?'. *)
Theorem C8_commits_url (w : World) (name : string)
    (conf keymanager : gmap string value) (repo : value) (tr : list event) :
  conf !! "github" = Some repo ->
  truthy (conf_get conf "use_latest_tag" (VBool false)) = false ->
  truthy (conf_get conf "use_latest_release" (VBool false)) = false ->
  truthy (conf_get conf "use_max_tag" (VBool false)) = false ->
  let br := conf_get conf "branch" VNone in
  let path := conf_get conf "path" VNone in
  let parameters := commit_parameters br path in
  let sha := "sha=" +:+ PyStr.quote_plus (py_str w br) in
  let pth := "path=" +:+ PyStr.quote_plus (py_str w path) in
  snd (get_version_real w name conf keymanager tr) =
    tr ++ [CacheGetJson
             (GITHUB_URL (py_str w repo) +:+ "?" +:+ urlencode w parameters)
             (rest_headers w (resolve_token conf keymanager))] /\
  assoc "sha" parameters = (if truthy br then Some br else None) /\
  assoc "path" parameters = (if truthy path then Some path else None) /\
  urlencode w parameters =
    (if truthy br
     then if truthy path then sha +:+ "&" +:+ pth else sha
     else if truthy path then pth else EmptyString) /\
  (truthy br = false -> truthy path = false ->
   GITHUB_URL (py_str w repo) +:+ "?" +:+ urlencode w parameters =
     "https://api.github.com/repos/" +:+ py_str w repo +:+ "/commits?").
Proof.
  intros Hrepo Hlt Hr Hmax br path parameters sha pth.
  split; [|split; [|split; [|split]]].
  - rewrite (commits_run w name conf keymanager repo tr Hrepo Hlt Hr Hmax).
    reflexivity.
  - subst parameters. unfold commit_parameters.
    destruct (truthy br), (truthy path); reflexivity.
  - subst parameters. unfold commit_parameters.
    destruct (truthy br), (truthy path); reflexivity.
  - subst parameters sha pth. unfold commit_parameters, urlencode.
    destruct (truthy br), (truthy path); simpl;
      rewrite ?string_app_assoc; reflexivity.
  - intros Hb Hp. subst parameters. unfold commit_parameters.
    rewrite Hb, Hp. unfold urlencode, GITHUB_URL. simpl.
    rewrite !string_app_assoc. reflexivity.
Qed.

Lemma C8_commits_url_witness :
  snd (get_version_real (world_json (VList [])) "proj" conf_branch_path ∅ []) =
    [CacheGetJson
       "https://api.github.com/repos/o/r/commits?sha=release%2F1.x&path=src+dir"
       accept_headers].
Proof.
  destruct (C8_commits_url (world_json (VList [])) "proj" conf_branch_path ∅
              (VStr "o/r") [])
    as [Hrun _];
    [vm_compute; reflexivity | vm_compute; reflexivity
    | vm_compute; reflexivity | vm_compute; reflexivity |].
  rewrite Hrun. vm_compute. reflexivity.
Defined.

(** C8 as stated fails: with neither [branch] nor [path] the request URL
    ends in '?', so it is not exactly the commits path; and a [branch] set
    to the empty string adds no [sha] parameter. *)
Lemma C8_counterexample :
  snd (get_version_real (world_json (VList [])) "proj" conf_repo ∅ []) =
    [CacheGetJson "https://api.github.com/repos/o/r/commits?" accept_headers] /\
  "https://api.github.com/repos/o/r/commits?" <>
  "https://api.github.com/repos/o/r/commits" /\
  snd (get_version_real (world_json (VList [])) "proj"
         (<["branch" := VStr EmptyString]> conf_repo) ∅ []) =
    [CacheGetJson "https://api.github.com/repos/o/r/commits?" accept_headers].
Proof.
  split; [vm_compute; reflexivity|].
  split; [discriminate | vm_compute; reflexivity].
Qed.

(** *** The date transform, character by character *)

Lemma prefix_char (o c : ascii) (r : string) :
  String.prefix (String o EmptyString) (String c r) = Ascii.eqb c o.
Proof.
  simpl. destruct (ascii_dec o c) as [->|Hne].
  - rewrite prefix_empty, Ascii.eqb_refl. reflexivity.
  - symmetry. apply Ascii.eqb_neq. congruence.
Qed.

Lemma replace_char (o : ascii) (new s : string) :
  PyStr.replace (String o EmptyString) new s =
  string_flat_map
    (fun c => if Ascii.eqb c o then new else String c EmptyString) s.
Proof.
  unfold PyStr.replace. induction s as [|c r IH]; [reflexivity|].
  cbn [PyStr.replace_from string_flat_map]. rewrite prefix_char.
  change (String.length (String o EmptyString) - 1)%nat with 0%nat.
  rewrite IH. destruct (Ascii.eqb c o); reflexivity.
Qed.

Lemma flat_map_app f (a b : string) :
  string_flat_map f (a +:+ b) = string_flat_map f a +:+ string_flat_map f b.
Proof.
  induction a as [|c a IH]; [reflexivity|].
  change (f c +:+ string_flat_map f (a +:+ b) =
          (f c +:+ string_flat_map f a) +:+ string_flat_map f b).
  rewrite IH, string_app_assoc. reflexivity.
Qed.

Lemma flat_map_flat_map f g (s : string) :
  string_flat_map f (string_flat_map g s) =
  string_flat_map (fun c => string_flat_map f (g c)) s.
Proof.
  induction s as [|c r IH]; [reflexivity|].
  cbn [string_flat_map]. rewrite flat_map_app, IH. reflexivity.
Qed.

Lemma flat_map_ext f g (s : string) :
  (forall c, f c = g c) -> string_flat_map f s = string_flat_map g s.
Proof.
  intros Hfg. induction s as [|c r IH]; [reflexivity|].
  cbn [string_flat_map]. rewrite Hfg, IH. reflexivity.
Qed.

(** The three replacements together are [date_char] on every character. *)
Lemma date_version_chars (d : string) :
  date_version d = string_flat_map date_char (PyStr.rstrip "Z" d).
Proof.
  unfold date_version. rewrite !replace_char, !flat_map_flat_map.
  apply flat_map_ext. intros c. unfold date_char.
  destruct (Ascii.eqb c "-") eqn:E1; [reflexivity|].
  cbn [string_flat_map]. destruct (Ascii.eqb c ":") eqn:E2; [reflexivity|].
  cbn [string_flat_map]. destruct (Ascii.eqb c "T"); reflexivity.
Qed.

Lemma date_char_idem (c : ascii) :
  string_flat_map date_char (date_char c) = date_char c.
Proof.
  unfold date_char at 2 3.
  destruct (Ascii.eqb c "-") eqn:E1; [reflexivity|].
  destruct (Ascii.eqb c ":") eqn:E2; [reflexivity|].
  destruct (Ascii.eqb c "T") eqn:E3; [reflexivity|].
  cbn [string_flat_map]. unfold date_char. rewrite E1, E2, E3. reflexivity.
Qed.

Lemma date_chars_idem (s : string) :
  string_flat_map date_char (string_flat_map date_char s) =
  string_flat_map date_char s.
Proof.
  rewrite flat_map_flat_map. apply flat_map_ext, date_char_idem.
Qed.

(** *** What [rstrip('Z')] removes *)

Lemma last_char_none (s : string) : last_char s = None -> s = EmptyString.
Proof.
  destruct s as [|c r]; [reflexivity|]. simpl.
  destruct (last_char r); discriminate.
Qed.

Lemma rstrip_app_Z (d : string) :
  PyStr.rstrip "Z" (d +:+ "Z") = PyStr.rstrip "Z" d.
Proof.
  induction d as [|c r IH]; [reflexivity|].
  change (String c r +:+ "Z") with (String c (r +:+ "Z")).
  cbn [PyStr.rstrip]. rewrite IH. reflexivity.
Qed.

Lemma rstrip_id (d : string) :
  ends_with_Z d = false -> PyStr.rstrip "Z" d = d.
Proof.
  unfold ends_with_Z. induction d as [|c r IH]; [reflexivity|].
  cbn [last_char PyStr.rstrip]. destruct (last_char r) as [x|] eqn:El.
  - intros Hx. rewrite (IH Hx). destruct r; [discriminate | reflexivity].
  - intros Hc. rewrite (last_char_none r El).
    cbn. rewrite Hc. reflexivity.
Qed.

Lemma last_char_rstrip (d : string) :
  last_char (PyStr.rstrip "Z" d) = last_non_Z d.
Proof.
  induction d as [|c r IH]; [reflexivity|].
  cbn [PyStr.rstrip last_non_Z]. rewrite <- IH.
  destruct (PyStr.rstrip "Z" r) as [|c' r'] eqn:E.
  - cbn. destruct (Ascii.eqb c "Z"); reflexivity.
  - cbn [last_char] in *. destruct (last_char r'); reflexivity.
Qed.

Lemma last_char_app (a b : string) (c : ascii) :
  last_char b = Some c -> last_char (a +:+ b) = Some c.
Proof.
  intros Hb. induction a as [|x a IH]; [exact Hb|].
  change (last_char (String x (a +:+ b)) = Some c).
  cbn [last_char]. rewrite IH. reflexivity.
Qed.

(** *** Digits and well-formed timestamps *)

Lemma digit_not (c x : ascii) :
  PyStr.is_digit c = true -> PyStr.is_digit x = false -> Ascii.eqb c x = false.
Proof.
  intros Hc Hx. destruct (Ascii.eqb_spec c x) as [->|]; [congruence | done].
Qed.

Lemma date_char_digit (c : ascii) :
  PyStr.is_digit c = true -> date_char c = String c EmptyString.
Proof.
  intros Hc. unfold date_char.
  rewrite !(digit_not c) by (exact Hc || reflexivity). reflexivity.
Qed.

Lemma last_non_Z_later (c x : ascii) (r : string) :
  last_non_Z r = Some x -> last_non_Z (String c r) = Some x.
Proof. intros H. cbn [last_non_Z]. rewrite H. reflexivity. Qed.

Lemma last_non_Z_here (c : ascii) (r : string) :
  last_non_Z r = None -> PyStr.is_digit c = true ->
  last_non_Z (String c r) = Some c.
Proof.
  intros H Hc. cbn [last_non_Z]. rewrite H, (digit_not c "Z" Hc eq_refl).
  reflexivity.
Qed.


Lemma digit_or_none_cons (c : ascii) (r : string) :
  PyStr.is_digit c = true -> digit_or_none r ->
  exists x, last_non_Z (String c r) = Some x /\ PyStr.is_digit x = true.
Proof.
  intros Hc [Hn | (x & Hx & Hd)].
  - exists c. split; [apply last_non_Z_here; assumption | exact Hc].
  - exists x. split; [apply last_non_Z_later; assumption | exact Hd].
Qed.

Ltac split_andb :=
  repeat match goal with
         | H : _ && _ = true |- _ =>
             apply andb_prop in H; destruct H
         end.

Lemma zone_last (z : string) : zone_ok z = true -> digit_or_none z.
Proof.
  destruct z as [|sg [|h1 [|h2 [|cl [|m1 [|m2 [|? ?]]]]]]];
    cbn [zone_ok]; intros Hz; try discriminate.
  - left. reflexivity.
  - apply Ascii.eqb_eq in Hz as ->. left. reflexivity.
  - split_andb. right.
    destruct (digit_or_none_cons m2 EmptyString) as (x & Hx & Hd);
      [assumption | left; reflexivity |].
    exists x. split; [|exact Hd]. do 5 apply last_non_Z_later. exact Hx.
Qed.

Lemma fraction_last (s : string) :
  fraction_ok s = true ->
  exists c, last_non_Z s = Some c /\ PyStr.is_digit c = true.
Proof.
  induction s as [|c r IH]; [discriminate|].
  cbn [fraction_ok]. intros H. split_andb.
  apply digit_or_none_cons; [assumption|].
  match goal with
  | H : _ || _ = true |- _ => apply orb_prop in H as [Hz | Hf]
  end.
  - apply zone_last, Hz.
  - right. apply IH, Hf.
Qed.

Lemma tail_last (rest : string) : tail_ok rest = true -> digit_or_none rest.
Proof.
  unfold tail_ok. intros H. apply orb_prop in H as [Hz | Hf].
  - apply zone_last, Hz.
  - destruct rest as [|c r]; [discriminate|]. split_andb.
    destruct (fraction_last r) as (x & Hx & Hd); [assumption|].
    right. exists x. split; [apply last_non_Z_later, Hx | exact Hd].
Qed.

Lemma iso8601_last (d : string) :
  iso8601 d = true ->
  exists c, last_non_Z d = Some c /\ PyStr.is_digit c = true.
Proof.
  unfold iso8601.
  do 19 (destruct d as [|? d]; [discriminate|]).
  intros H. split_andb.
  destruct (digit_or_none_cons a17 d) as (x & Hx & Hd);
    [assumption | apply tail_last; assumption |].
  exists x. split; [|exact Hd]. do 18 apply last_non_Z_later. exact Hx.
Qed.

Lemma flat_last (s : string) (c : ascii) :
  last_char s = Some c -> PyStr.is_digit c = true ->
  last_char (string_flat_map date_char s) = Some c.
Proof.
  intros Hs Hc. induction s as [|a r IH]; [discriminate|].
  cbn [last_char string_flat_map] in *.
  destruct (last_char r) as [x|] eqn:El.
  - apply last_char_app, IH, Hs.
  - injection Hs as ->. rewrite (last_char_none r El).
    rewrite (date_char_digit c Hc). reflexivity.
Qed.

(** The transform is idempotent on every string whose last character other
    than trailing 'Z's is a digit. *)
Lemma date_version_idempotent (d : string) (c : ascii) :
  last_non_Z d = Some c -> PyStr.is_digit c = true ->
  date_version (date_version d) = date_version d.
Proof.
  intros Hl Hc.
  assert (Hend : ends_with_Z (date_version d) = false).
  { unfold ends_with_Z. rewrite date_version_chars.
    rewrite (flat_last _ c); [apply (digit_not c "Z" Hc eq_refl) | | exact Hc].
    rewrite last_char_rstrip. exact Hl. }
  rewrite (date_version_chars (date_version d)), (rstrip_id _ Hend).
  rewrite (date_version_chars d). apply date_chars_idem.
Qed.

Lemma nth_item_head {A} (a : A) (l : list A) : nth_item (a :: l) 0 = inr a.
Proof.
  unfold nth_item. cbn [length].
  change (0 <? 0) with false. cbn [orb].
  destruct (Z.leb_spec (Z.of_nat (S (length l))) 0); [lia | reflexivity].
Qed.

Lemma getpath_head (e0 : value) (rest : list value) (ks : list index) :
  getpath (VList (e0 :: rest)) (Pos 0 :: ks) = getpath e0 ks.
Proof.
  unfold getpath at 1. cbn [getitem]. rewrite nth_item_head. reflexivity.
Qed.

Lemma parse_commits_head (e0 : value) (rest : list value) (d : string)
    (u : value) :
  getpath e0 [Key "commit"; Key "committer"; Key "date"] = inr (VStr d) ->
  getitem e0 (Key "html_url") = inr u ->
  parse_commits (VList (e0 :: rest)) =
    inr (RRich {| version := VStr (date_version d); url := u |}).
Proof.
  intros Hdate Hurl. unfold parse_commits.
  rewrite !getpath_head, Hdate. cbn [ebind date_version_of].
  unfold getpath. rewrite Hurl. reflexivity.
Qed.

(** C6. Under the commits strategy, when the endpoint answers an array whose
    element 0 has the string [d] at [commit.committer.date] and [u] at
    [html_url], the result is the version [date_version d] with url [u].
    The transform strips trailing 'Z's (one more 'Z' at the end changes
    nothing), and on what is left removes every '-' and ':' and replaces 'T'
    by '.'; "2023-05-01T12:00:00Z" gives exactly "20230501.120000". *)
Theorem C6_commits_version (w : World) (name : string)
    (conf keymanager : gmap string value) (repo : value) (tr : list event)
    (e0 : value) (rest : list value) (d : string) (u : value) :
  conf !! "github" = Some repo ->
  truthy (conf_get conf "use_latest_tag" (VBool false)) = false ->
  truthy (conf_get conf "use_latest_release" (VBool false)) = false ->
  truthy (conf_get conf "use_max_tag" (VBool false)) = false ->
  cache_get_json_result w
    (commits_url w repo (conf_get conf "branch" VNone)
       (conf_get conf "path" VNone))
    (rest_headers w (resolve_token conf keymanager)) =
    inr (VList (e0 :: rest)) ->
  getpath e0 [Key "commit"; Key "committer"; Key "date"] = inr (VStr d) ->
  getitem e0 (Key "html_url") = inr u ->
  fst (get_version_real w name conf keymanager tr) =
    inr (RRich {| version := VStr (date_version d); url := u |}) /\
  date_version "2023-05-01T12:00:00Z" = "20230501.120000" /\
  (forall s, date_version (s +:+ "Z") = date_version s) /\
  (forall s, ends_with_Z s = false ->
     date_version s = string_flat_map date_char s).
Proof.
  intros Hrepo Hlt Hr Hmax Hdata Hdate Hurl.
  split; [|split; [|split]].
  - rewrite (commits_run w name conf keymanager repo tr Hrepo Hlt Hr Hmax).
    cbn [fst]. rewrite Hdata. cbn [ebind].
    apply parse_commits_head; assumption.
  - reflexivity.
  - intros s. rewrite !date_version_chars, rstrip_app_Z. reflexivity.
  - intros s Hs. rewrite date_version_chars, (rstrip_id s Hs). reflexivity.
Qed.

Lemma C6_commits_version_witness :
  fst (get_version_real (world_json (VList [sample_commit])) "proj" conf_repo
         ∅ []) =
    inr (RRich {| version := VStr "20230501.120000";
                  url := VStr "https://github.com/o/r/commit/abc" |}).
Proof.
  destruct (C6_commits_version (world_json (VList [sample_commit])) "proj"
              conf_repo ∅ (VStr "o/r") [] sample_commit []
              "2023-05-01T12:00:00Z"
              (VStr "https://github.com/o/r/commit/abc"))
    as [Hrun _];
    [vm_compute; reflexivity | vm_compute; reflexivity
    | vm_compute; reflexivity | vm_compute; reflexivity
    | vm_compute; reflexivity | vm_compute; reflexivity
    | vm_compute; reflexivity |].
  rewrite Hrun. vm_compute. reflexivity.
Defined.

(** C7. The date transform is total on strings: on every [str] value the
    expression returns a [str] and raises nothing.  On every well-formed
    timestamp ([YYYY-MM-DDTHH:MM:SS], an optional fraction, a zone that is
    empty, [Z] or a signed [HH:MM]) it is idempotent: applied to its own
    output it returns that output. *)
Theorem C7_date_transform_idempotent :
  (forall s : string, date_version_of (VStr s) = inr (VStr (date_version s))) /\
  (forall d : string,
     iso8601 d = true ->
     date_version_of (VStr (date_version d)) = inr (VStr (date_version d)) /\
     date_version (date_version d) = date_version d).
Proof.
  split; [reflexivity|].
  intros d Hd. destruct (iso8601_last d Hd) as (c & Hl & Hc).
  cbn [date_version_of].
  rewrite (date_version_idempotent d c Hl Hc). split; reflexivity.
Qed.

Lemma C7_date_transform_idempotent_witness :
  date_version (date_version "2023-05-01T12:00:00Z") =
  date_version "2023-05-01T12:00:00Z".
Proof.
  destruct C7_date_transform_idempotent as [_ Hidem].
  apply (Hidem "2023-05-01T12:00:00Z"). vm_compute. reflexivity.
Defined.

(** ** Further behaviour of the module *)

(** *** The entry without its repository *)

(** X1. An entry without the [github] key fails at the first statement
    of [get_version_real] with [KeyError 'github'], whatever its other
    options and the key manager hold; nothing is requested, and
    [get_version] lets the error through. *)
Theorem missing_repository_key (w : World) (name : string)
    (conf keymanager : gmap string value) (tr : list event) :
  conf !! "github" = None ->
  get_version_real w name conf keymanager tr =
    (inl (KeyError (Key "github")), tr) /\
  get_version w name conf keymanager tr =
    (inl (KeyError (Key "github")), tr).
Proof.
  intros Hnone.
  assert (Hreal : get_version_real w name conf keymanager tr =
            (inl (KeyError (Key "github")), tr)).
  { run. rewrite Hnone. reflexivity. }
  split; [exact Hreal|].
  unfold get_version, try_except. rewrite Hreal. reflexivity.
Qed.

Lemma missing_repository_key_witness :
  get_version (world_json VNone) "proj"
    (<["use_latest_tag" := VBool true]> ∅) keys_github [] =
    (inl (KeyError (Key "github")), []).
Proof.
  apply (missing_repository_key (world_json VNone) "proj"
           (<["use_latest_tag" := VBool true]> ∅) keys_github []).
  vm_compute. reflexivity.
Defined.

(** *** The GraphQL fetchers *)

Lemma split_length_count (s : string) :
  length (PyStr.split_from "/" s 0 None) = S (count_char "/" s).
Proof.
  induction s as [|c r IH]; [reflexivity|].
  cbn [PyStr.split_from count_char PyStr.may_split andb].
  rewrite prefix_char.
  change (String.length "/" - 1)%nat with 0%nat.
  change (PyStr.spend None) with (@None nat).
  destruct (Ascii.eqb c "/").
  - cbn [length]. rewrite IH. reflexivity.
  - destruct (PyStr.split_from "/" r 0 None) as [|p ps] eqn:E.
    + exfalso. exact (split_from_nonempty "/" r 0%nat None E).
    + cbn [length] in *. rewrite IH. reflexivity.
Qed.

Lemma unpack2_length (parts : list string) :
  length parts <> 2%nat -> unpack2 parts = inl ValueError.
Proof.
  destruct parts as [|a [|b [|c parts]]]; cbn; intros H;
    try reflexivity. contradiction.
Qed.

(** X2. A repository name that does not contain exactly one '/' cannot be
    unpacked into owner and name: both GraphQL fetchers raise [ValueError]
    before any request is posted. *)
Theorem fetchers_need_owner_and_name (w : World) (repo : string)
    (query token : value) (tr : list event) :
  count_char "/" repo <> 1%nat ->
  get_latest_tag w [VStr repo; query; token] tr = (inl ValueError, tr) /\
  get_latest_release_with_prereleases w [VStr repo; token] tr =
    (inl ValueError, tr).
Proof.
  intros Hcount.
  assert (Hu : unpack2 (PyStr.split_from "/" repo 0 None) = inl ValueError).
  { apply unpack2_length. rewrite split_length_count. lia. }
  unfold get_latest_tag, get_latest_release_with_prereleases.
  run. cbn [method_split PyStr.split]. rewrite Hu. split; reflexivity.
Qed.

Lemma fetchers_need_owner_and_name_witness :
  get_latest_tag (world_json sample_tag_doc)
    [VStr "group/sub/project"; VStr EmptyString; VStr "tok"] [] =
    (inl ValueError, []).
Proof.
  apply (fetchers_need_owner_and_name (world_json sample_tag_doc)
           "group/sub/project" (VStr EmptyString) (VStr "tok") []).
  vm_compute. lia.
Defined.

(** X3. [get_latest_tag] on an owner/name repository posts one GraphQL
    request carrying [Authorization: bearer {token}] and the latest-tag
    query document.  When the answer's [data.repository.refs.edges] is the
    empty list it raises [GetVersionError "no tag found"]; when edge 0 has
    the string [v] at [node.name] it returns version [v] with url
    https://github.com/{repo}/releases/tag/{v}. *)
Theorem latest_tag_fetch (w : World) (repo owner reponame : string)
    (query token : value) (tr : list event) (res : Response) (j : value)
    (edges : list value) :
  PyStr.split "/" None repo = Some [owner; reponame] ->
  let hdrs :=
    <["Content-Type" := "application/json"]>
      {["Authorization" := "bearer " +:+ py_str w token]} in
  let body :=
    VDict [("query",
            VStr (QUERY_LATEST_TAG reponame owner (py_str w query)))] in
  session_post w GITHUB_GRAPHQL_URL hdrs body = inr res ->
  json res = Some j ->
  getpath j [Key "data"; Key "repository"; Key "refs"; Key "edges"] =
    inr (VList edges) ->
  let sent := tr ++ [SessionPost GITHUB_GRAPHQL_URL hdrs body] in
  (edges = [] ->
   get_latest_tag w [VStr repo; query; token] tr =
     (inl (GetVersionError "no tag found"), sent)) /\
  (forall e0 rest v,
     edges = e0 :: rest ->
     getpath e0 [Key "node"; Key "name"] = inr (VStr v) ->
     get_latest_tag w [VStr repo; query; token] tr =
       (inr (RRich {| version := VStr v;
                      url := VStr ("https://github.com/" +:+ repo +:+
                                   "/releases/tag/" +:+ v) |}), sent)).
Proof.
  intros Hsplit hdrs body Hpost Hjson Hedges sent.
  assert (Hrun : get_latest_tag w [VStr repo; query; token] tr =
    (let? refs := inr (VList edges) in
     if negb (truthy refs) then inl (GetVersionError "no tag found")
     else
       let? version := getpath refs [Pos 0; Key "node"; Key "name"] in
       inr (RRich {| version := version;
                     url := VStr ("https://github.com/" +:+ repo +:+
                                  "/releases/tag/" +:+ py_str w version) |}),
     sent)).
  { unfold get_latest_tag. run. cbn [method_split]. rewrite Hsplit.
    cbn [unpack2 fst snd]. unfold graphql_headers. fold hdrs body.
    rewrite Hpost. unfold response_json. rewrite Hjson, Hedges.
    cbn [ebind]. destruct (negb (truthy (VList edges))); [reflexivity|].
    destruct (getpath (VList edges) _); reflexivity. }
  rewrite Hrun. split.
  - intros ->. reflexivity.
  - intros e0 rest v -> Hname. cbn [ebind truthy negb].
    rewrite getpath_head, Hname. reflexivity.
Qed.

Lemma latest_tag_fetch_witness :
  get_latest_tag (world_json sample_no_edges_doc)
    [VStr "o/r"; VStr "v1"; VStr "tok"] [] =
    (inl (GetVersionError "no tag found"),
     [SessionPost GITHUB_GRAPHQL_URL
        (<["Content-Type" := "application/json"]>
           {["Authorization" := "bearer tok"]})
        (VDict [("query", VStr (QUERY_LATEST_TAG "r" "o" "v1"))])]).
Proof.
  destruct (latest_tag_fetch (world_json sample_no_edges_doc) "o/r" "o" "r"
              (VStr "v1") (VStr "tok") []
              {| headers := ∅; json := Some sample_no_edges_doc |}
              sample_no_edges_doc [])
    as [Hempty _];
    [vm_compute; reflexivity | vm_compute; reflexivity
    | vm_compute; reflexivity | vm_compute; reflexivity |].
  apply Hempty. reflexivity.
Defined.

(** X4. [get_latest_release_with_prereleases] on an owner/name repository
    posts one GraphQL request with the release query document.  An empty
    [data.repository.releases.edges] raises [GetVersionError "no release
    found"]; otherwise version and url are edge 0's [node.name] and
    [node.url] as they are: the url is not synthesized from the
    repository. *)
Theorem latest_release_fetch (w : World) (repo owner reponame : string)
    (token : value) (tr : list event) (res : Response) (j : value)
    (edges : list value) :
  PyStr.split "/" None repo = Some [owner; reponame] ->
  let hdrs :=
    <["Content-Type" := "application/json"]>
      {["Authorization" := "bearer " +:+ py_str w token]} in
  let body :=
    VDict [("query",
            VStr (QUERY_LATEST_RELEASE_WITH_PRERELEASES reponame owner))] in
  session_post w GITHUB_GRAPHQL_URL hdrs body = inr res ->
  json res = Some j ->
  getpath j [Key "data"; Key "repository"; Key "releases"; Key "edges"] =
    inr (VList edges) ->
  let sent := tr ++ [SessionPost GITHUB_GRAPHQL_URL hdrs body] in
  (edges = [] ->
   get_latest_release_with_prereleases w [VStr repo; token] tr =
     (inl (GetVersionError "no release found"), sent)) /\
  (forall e0 rest v u,
     edges = e0 :: rest ->
     getpath e0 [Key "node"; Key "name"] = inr v ->
     getpath e0 [Key "node"; Key "url"] = inr u ->
     get_latest_release_with_prereleases w [VStr repo; token] tr =
       (inr (RRich {| version := v; url := u |}), sent)).
Proof.
  intros Hsplit hdrs body Hpost Hjson Hedges sent.
  assert (Hrun : get_latest_release_with_prereleases w [VStr repo; token] tr =
    (let? refs := inr (VList edges) in
     if negb (truthy refs) then inl (GetVersionError "no release found")
     else
       let? version := getpath refs [Pos 0; Key "node"; Key "name"] in
       let? url := getpath refs [Pos 0; Key "node"; Key "url"] in
       inr (RRich {| version := version; url := url |}),
     sent)).
  { unfold get_latest_release_with_prereleases. run. cbn [method_split].
    rewrite Hsplit. cbn [unpack2 fst snd]. unfold graphql_headers.
    fold hdrs body. rewrite Hpost. unfold response_json.
    rewrite Hjson, Hedges. cbn [ebind].
    destruct (negb (truthy (VList edges))); [reflexivity|].
    match goal with
    | |- context [getpath (VList edges) ?p] =>
        destruct (getpath (VList edges) p); [reflexivity|]
    end.
    match goal with
    | |- context [getpath (VList edges) ?p] =>
        destruct (getpath (VList edges) p); reflexivity
    end. }
  rewrite Hrun. split.
  - intros ->. reflexivity.
  - intros e0 rest v u -> Hname Hurl. cbn [ebind truthy negb].
    rewrite !getpath_head, Hname, Hurl. reflexivity.
Qed.

Lemma latest_release_fetch_witness :
  fst (get_version_real (world_json sample_release_edges_doc) "proj"
         conf_prereleases ∅ []) =
    inr (RRich {| version := VStr "v3.0-rc1"; url := VStr "https://x/rc1" |}).
Proof.
  destruct (latest_release_fetch (world_json sample_release_edges_doc) "o/r"
              "o" "r" (VStr "tok")
              [CacheGet [VStr "o/r"; VStr "tok"]
                 FetchLatestReleaseWithPrereleases]
              {| headers := ∅; json := Some sample_release_edges_doc |}
              sample_release_edges_doc
              [VDict [("node", VDict [("name", VStr "v3.0-rc1");
                                      ("url", VStr "https://x/rc1")])]])
    as [_ Hok];
    [vm_compute; reflexivity | vm_compute; reflexivity
    | vm_compute; reflexivity | vm_compute; reflexivity |].
  change (get_version_real (world_json sample_release_edges_doc) "proj"
            conf_prereleases ∅ [])
    with (get_latest_release_with_prereleases
            (world_json sample_release_edges_doc) [VStr "o/r"; VStr "tok"]
            [CacheGet [VStr "o/r"; VStr "tok"]
               FetchLatestReleaseWithPrereleases]).
  erewrite Hok; reflexivity.
Defined.

(** *** The token *)

(** X5. An entry that has a [token] of its own is resolved without the key
    manager: whatever keys the key manager holds, the resolution is the
    same.  This includes an empty token, which is not replaced by the key
    manager's. *)
Theorem own_token_ignores_key_manager (w : World) (name : string)
    (conf km km' : gmap string value) (token : value) (tr : list event) :
  conf !! "token" = Some token ->
  is_none token = false ->
  resolve_token conf km = token /\
  get_version_real w name conf km tr = get_version_real w name conf km' tr /\
  get_version w name conf km tr = get_version w name conf km' tr.
Proof.
  intros Htok Hnone.
  assert (Hres : forall k, resolve_token conf k = token).
  { intros k. unfold resolve_token, conf_get. rewrite Htok.
    change (default VNone (Some token)) with token.
    rewrite Hnone. reflexivity. }
  assert (Hreal : get_version_real w name conf km tr =
                  get_version_real w name conf km' tr).
  { unfold get_version_real. rewrite (Hres km), (Hres km'). reflexivity. }
  split; [apply Hres|]. split; [exact Hreal|].
  unfold get_version, try_except. rewrite Hreal. reflexivity.
Qed.

Lemma own_token_ignores_key_manager_witness :
  get_version (world_json sample_tag_doc) "proj" conf_empty_token
    keys_github [] =
    (inl (GetVersionError "token not given but it is required"), []).
Proof.
  destruct (own_token_ignores_key_manager (world_json sample_tag_doc) "proj"
              conf_empty_token keys_github ∅ (VStr EmptyString) [])
    as (_ & _ & Hsame); [vm_compute; reflexivity | reflexivity |].
  rewrite Hsame. vm_compute. reflexivity.
Defined.

(** X6. Every REST request carries the [Accept] header of the preview API,
    and an [Authorization] header [token {token}] exactly when the resolved
    token is true; no other header is sent. *)
Theorem rest_request_headers (w : World) (name : string)
    (conf keymanager : gmap string value) (repo : value) (tr : list event) :
  conf !! "github" = Some repo ->
  truthy (conf_get conf "use_latest_tag" (VBool false)) = false ->
  truthy (conf_get conf "use_latest_release" (VBool false)) &&
  truthy (conf_get conf "include_prereleases" (VBool false)) = false ->
  let token := resolve_token conf keymanager in
  exists out url hdrs,
    get_version_real w name conf keymanager tr =
      (out, tr ++ [CacheGetJson url hdrs]) /\
    hdrs !! "Accept" =
      Some "application/vnd.github.quicksilver-preview+json" /\
    hdrs !! "Authorization" =
      (if truthy token then Some ("token " +:+ py_str w token) else None) /\
    forall k, k <> "Accept" -> k <> "Authorization" -> hdrs !! k = None.
Proof.
  intros Hrepo Hlt Hrp token.
  assert (Hrun : exists out url,
            get_version_real w name conf keymanager tr =
              (out, tr ++ [CacheGetJson url (rest_headers w token)])).
  { run. rewrite Hrepo, Hlt, Hrp. fold token. cbv beta zeta.
    match goal with
    | |- context [cache_get_json_result w ?u ?h] =>
        destruct (cache_get_json_result w u h) as [e|data]
    end; [eauto|].
    destruct (truthy (conf_get conf "use_max_tag" (VBool false))); [eauto|].
    destruct (truthy (conf_get conf "use_latest_release" (VBool false)));
      eauto. }
  destruct Hrun as (out & url & Hrun).
  exists out, url, (rest_headers w token). split; [exact Hrun|].
  unfold rest_headers. destruct (truthy token).
  - split; [|split].
    + rewrite lookup_insert_ne by done. apply lookup_singleton_eq.
    + apply lookup_insert_eq.
    + intros k Ha Hb. rewrite lookup_insert_ne by done.
      apply lookup_singleton_ne. done.
  - split; [|split].
    + apply lookup_singleton_eq.
    + apply lookup_singleton_ne. done.
    + intros k Ha Hb. apply lookup_singleton_ne. done.
Qed.

Lemma rest_request_headers_witness :
  exists out url hdrs,
    get_version_real (world_json sample_refs_doc) "proj" conf_max_tag
      keys_github [] = (out, [CacheGetJson url hdrs]) /\
    hdrs !! "Authorization" = Some "token secret".
Proof.
  destruct (rest_request_headers (world_json sample_refs_doc) "proj"
              conf_max_tag keys_github (VStr "o/r") [])
    as (out & url & hdrs & Hrun & _ & Hauth & _);
    [vm_compute; reflexivity | vm_compute; reflexivity
    | vm_compute; reflexivity |].
  exists out, url, hdrs. split; [exact Hrun | exact Hauth].
Defined.

(** *** Flags that do not agree *)

(** X7. With [use_latest_release] and [use_max_tag] both true (and no
    GraphQL strategy selected) the URL is chosen by [use_latest_release] but
    the payload is read by the max-tag branch, which is tested first after
    the fetch: the request goes to the latest-release endpoint and its
    answer is parsed as a list of tag references.  A release object, which
    has at least one field, therefore ends in [TypeError]. *)
Theorem release_url_with_max_tag_parser (w : World) (name : string)
    (conf keymanager : gmap string value) (repo data : value)
    (tr : list event) :
  conf !! "github" = Some repo ->
  truthy (conf_get conf "use_latest_tag" (VBool false)) = false ->
  truthy (conf_get conf "use_latest_release" (VBool false)) = true ->
  truthy (conf_get conf "include_prereleases" (VBool false)) = false ->
  truthy (conf_get conf "use_max_tag" (VBool false)) = true ->
  let url := GITHUB_LATEST_RELEASE (py_str w repo) in
  let hdrs := rest_headers w (resolve_token conf keymanager) in
  cache_get_json_result w url hdrs = inr data ->
  get_version_real w name conf keymanager tr =
    (parse_max_tag w repo data, tr ++ [CacheGetJson url hdrs]) /\
  (forall k v fields,
     data = VDict ((k, v) :: fields) ->
     get_version_real w name conf keymanager tr =
       (inl TypeError, tr ++ [CacheGetJson url hdrs])).
Proof.
  intros Hrepo Hlt Hr Hp Hmax url hdrs Hdata.
  assert (Hrun : get_version_real w name conf keymanager tr =
            (parse_max_tag w repo data, tr ++ [CacheGetJson url hdrs])).
  { run. rewrite Hrepo, Hlt, Hr, Hp, Hmax. cbn [andb]. cbv beta zeta.
    fold url hdrs. rewrite Hdata. reflexivity. }
  split; [exact Hrun|].
  intros k v fields ->. rewrite Hrun. reflexivity.
Qed.

Lemma release_url_with_max_tag_parser_witness :
  get_version_real (world_json sample_release_doc) "proj"
    conf_release_and_max ∅ [] =
    (inl TypeError,
     [CacheGetJson "https://api.github.com/repos/o/r/releases/latest"
        accept_headers]).
Proof.
  destruct (release_url_with_max_tag_parser (world_json sample_release_doc)
              "proj" conf_release_and_max ∅ (VStr "o/r") sample_release_doc
              [])
    as [_ Hdict];
    [vm_compute; reflexivity | vm_compute; reflexivity
    | vm_compute; reflexivity | vm_compute; reflexivity
    | vm_compute; reflexivity | vm_compute; reflexivity |].
  rewrite (Hdict "tag_name" (VStr "v2.0") [("html_url", VStr "https://x")]
             eq_refl).
  vm_compute. reflexivity.
Defined.

(** *** What the classifier and the entry point can do *)

(** X8. [check_ratelimit] logs exactly when it suppresses: if it returns
    normally, the exception carries a response whose remaining allowance
    converts to 0 and the trace has grown by the one log entry built from
    the reset header; if it raises, the trace is as before. *)
Theorem check_ratelimit_logs_iff_suppresses (w : World) (exc : exn)
    (name : string) (tr tr' : list event) (out : exn + unit) :
  check_ratelimit w exc name tr = (out, tr') ->
  (out = inr tt /\
   exists res reset at_time,
     exc_response exc = inr (Some res) /\
     py_int (headers_get res "X-RateLimit-Remaining" (VInt (-1))) = inr 0 /\
     py_int (headers_get res "X-RateLimit-Reset" VNone) = inr reset /\
     ctime w reset = inr at_time /\
     tr' = tr ++ [LogError (rate_limit_message at_time) name reset]) \/
  (exists e, out = inl e /\ tr' = tr).
Proof.
  unfold check_ratelimit. run.
  destruct (exc_response exc) as [e|[res|]]; cbv beta iota.
  - intros [= <- <-]. right. eauto.
  - destruct (py_int (headers_get res "X-RateLimit-Remaining" (VInt (-1))))
      as [e|n] eqn:Hn; cbv beta iota.
    + intros [= <- <-]. right. eauto.
    + destruct (Z.eqb_spec n 0) as [->|Hne].
      * destruct (py_int (headers_get res "X-RateLimit-Reset" VNone))
          as [e|reset] eqn:Hreset; cbv beta iota.
        { intros [= <- <-]. right. eauto. }
        destruct (ctime w reset) as [e|at_time] eqn:Htime; cbv beta iota.
        { intros [= <- <-]. right. eauto. }
        intros [= <- <-]. left. split; [reflexivity|].
        exists res, reset, at_time. auto.
      * intros [= <- <-]. right. eauto.
  - intros [= <- <-]. right. eauto.
Qed.

Lemma check_ratelimit_logs_iff_suppresses_witness :
  exists res reset at_time,
    exc_response (failure response_exhausted) = inr (Some res) /\
    py_int (headers_get res "X-RateLimit-Reset" VNone) = inr reset /\
    sample_ctime reset = inr at_time.
Proof.
  destruct (check_ratelimit_logs_iff_suppresses
              (world_failing (failure response_exhausted))
              (failure response_exhausted) "proj" []
              [LogError (rate_limit_message "Thu Jan  1 00:00:00 1970")
                 "proj" 1700000000]
              (inr tt))
    as [(_ & res & reset & at_time & Hres & _ & Hreset & Htime & _)
       | (e & He & _)];
    [vm_compute; reflexivity | | discriminate].
  exists res, reset, at_time. auto.
Defined.

Ltac no_post :=
  eexists _, []; rewrite app_nil_r;
  split; [reflexivity | split; [by left | discriminate]].
Ltac one_post :=
  eexists _, _;
  split; [reflexivity | split; [right; eauto | discriminate]].

Lemma get_latest_tag_shape (w : World) key tr :
  exists out evs,
    get_latest_tag w key tr = (out, tr ++ evs) /\ graphql_only evs /\
    out <> inr RNone.
Proof.
  unfold get_latest_tag.
  destruct key as [|repo [|query [|token [|? ?]]]]; try no_post.
  run.
  destruct (method_split repo "/" None) as [e|parts]; [no_post|].
  destruct (unpack2 parts) as [e|names]; [no_post|].
  cbv beta zeta.
  match goal with
  | |- context [session_post w ?u ?h ?b] =>
      destruct (session_post w u h b) as [e|res]
  end; [one_post|].
  destruct (response_json res) as [e|j]; [one_post|].
  match goal with
  | |- context [getpath j ?p] => destruct (getpath j p) as [e|refs]
  end; [one_post|].
  destruct (negb (truthy refs)); [one_post|].
  match goal with
  | |- context [getpath refs ?p] => destruct (getpath refs p) as [e|version]
  end; one_post.
Qed.

Lemma get_latest_release_shape (w : World) key tr :
  exists out evs,
    get_latest_release_with_prereleases w key tr = (out, tr ++ evs) /\
    graphql_only evs /\ out <> inr RNone.
Proof.
  unfold get_latest_release_with_prereleases.
  destruct key as [|repo [|token [|? ?]]]; try no_post.
  run.
  destruct (method_split repo "/" None) as [e|parts]; [no_post|].
  destruct (unpack2 parts) as [e|names]; [no_post|].
  cbv beta zeta.
  match goal with
  | |- context [session_post w ?u ?h ?b] =>
      destruct (session_post w u h b) as [e|res]
  end; [one_post|].
  destruct (response_json res) as [e|j]; [one_post|].
  match goal with
  | |- context [getpath j ?p] => destruct (getpath j p) as [e|refs]
  end; [one_post|].
  destruct (negb (truthy refs)); [one_post|].
  match goal with
  | |- context [getpath refs ?p] => destruct (getpath refs p) as [e|version]
  end; [one_post|].
  match goal with
  | |- context [getpath refs ?p] => destruct (getpath refs p) as [e|url]
  end; one_post.
Qed.

Lemma parse_max_tag_not_none (w : World) repo data :
  parse_max_tag w repo data <> inr RNone.
Proof.
  unfold parse_max_tag, ebind. destruct (py_iter data); [discriminate|].
  destruct (comprehension _ _) as [|[|]]; discriminate.
Qed.

Lemma parse_latest_release_not_none data :
  parse_latest_release data <> inr RNone.
Proof.
  unfold parse_latest_release, ebind.
  destruct (py_in "tag_name" data) as [|[|]]; try discriminate.
  cbn [negb]. destruct (getitem data (Key "tag_name")); [discriminate|].
  destruct (getitem data (Key "html_url")); discriminate.
Qed.

Lemma parse_commits_not_none data : parse_commits data <> inr RNone.
Proof.
  unfold parse_commits, ebind.
  match goal with
  | |- context [getpath data ?p] => destruct (getpath data p)
  end; [discriminate|].
  destruct (date_version_of _); [discriminate|].
  match goal with
  | |- context [getpath data ?p] => destruct (getpath data p)
  end; discriminate.
Qed.

(** The events of a request-making prefix followed by one GraphQL run. *)
Lemma requests_after_cache_get key f evs :
  graphql_only evs ->
  (length (List.filter is_request (CacheGet key f :: evs)) <= 1)%nat /\
  List.filter is_log (CacheGet key f :: evs) = [].
Proof. intros [-> | (h & b & ->)]; split; cbn; (lia || reflexivity). Qed.

Lemma resolution_events (w : World) name (conf keymanager : gmap string value)
    tr :
  exists out evs,
    get_version_real w name conf keymanager tr = (out, tr ++ evs) /\
    (length (List.filter is_request evs) <= 1)%nat /\
    List.filter is_log evs = [] /\
    out <> inr RNone.
Proof.
  run. destruct (conf !! "github") as [repo|];
    [|eexists _, []; rewrite app_nil_r; repeat split; (discriminate || cbn; lia)].
  destruct (truthy (conf_get conf "use_latest_tag" (VBool false))).
  { destruct (negb (truthy (resolve_token conf keymanager))).
    - eexists _, []. rewrite app_nil_r.
      repeat split; (discriminate || cbn; lia).
    - match goal with
      | |- context [get_latest_tag w ?key ?t] =>
          destruct (get_latest_tag_shape w key t)
            as (out & evs & Hrun & Hevs & Hout)
      end.
      exists out, (CacheGet [repo; conf_get conf "query" (VStr EmptyString);
                             resolve_token conf keymanager]
                     FetchLatestTag :: evs).
      rewrite Hrun, <- app_assoc.
      destruct (requests_after_cache_get
                  [repo; conf_get conf "query" (VStr EmptyString);
                   resolve_token conf keymanager] FetchLatestTag evs Hevs).
      auto. }
  destruct (truthy (conf_get conf "use_latest_release" (VBool false)) &&
            truthy (conf_get conf "include_prereleases" (VBool false))).
  { destruct (negb (truthy (resolve_token conf keymanager))).
    - eexists _, []. rewrite app_nil_r.
      repeat split; (discriminate || cbn; lia).
    - match goal with
      | |- context [get_latest_release_with_prereleases w ?key ?t] =>
          destruct (get_latest_release_shape w key t)
            as (out & evs & Hrun & Hevs & Hout)
      end.
      exists out, (CacheGet [repo; resolve_token conf keymanager]
                     FetchLatestReleaseWithPrereleases :: evs).
      rewrite Hrun, <- app_assoc.
      destruct (requests_after_cache_get
                  [repo; resolve_token conf keymanager]
                  FetchLatestReleaseWithPrereleases evs Hevs).
      auto. }
  cbv beta zeta.
  match goal with
  | |- context [cache_get_json_result w ?u ?h] =>
      destruct (cache_get_json_result w u h) as [e|data]
  end.
  { eexists _, [_]. repeat split; (discriminate || cbn; lia). }
  destruct (truthy (conf_get conf "use_max_tag" (VBool false))).
  { eexists _, [_]. split; [reflexivity|].
    repeat split; [cbn; lia | apply parse_max_tag_not_none]. }
  destruct (truthy (conf_get conf "use_latest_release" (VBool false))).
  { eexists _, [_]. split; [reflexivity|].
    repeat split; [cbn; lia | apply parse_latest_release_not_none]. }
  eexists _, [_]. split; [reflexivity|].
  repeat split; [cbn; lia | apply parse_commits_not_none].
Qed.

Lemma handler_outcome (w : World) c m resp name tr0 tr' out :
  (let* _ := check_ratelimit w (TemporaryError c m resp) name in ret RNone)
    tr0 = (out, tr') ->
  (out = inr RNone /\
   exists res reset at_time,
     resp = Some res /\
     py_int (headers_get res "X-RateLimit-Remaining" (VInt (-1))) = inr 0 /\
     tr' = tr0 ++ [LogError (rate_limit_message at_time) name reset]) \/
  (exists e, out = inl e /\ tr' = tr0).
Proof.
  unfold check_ratelimit. run. cbn [exc_response].
  destruct resp as [res|]; cbv beta iota;
    [|intros [= <- <-]; right; eauto].
  destruct (py_int (headers_get res "X-RateLimit-Remaining" (VInt (-1))))
    as [e|n] eqn:Hn; cbv beta iota; [intros [= <- <-]; right; eauto|].
  destruct (Z.eqb_spec n 0) as [->|Hne]; [|intros [= <- <-]; right; eauto].
  destruct (py_int (headers_get res "X-RateLimit-Reset" VNone))
    as [e|reset]; cbv beta iota; [intros [= <- <-]; right; eauto|].
  destruct (ctime w reset) as [e|at_time]; cbv beta iota;
    [intros [= <- <-]; right; eauto|].
  intros [= <- <-]. left. split; [reflexivity|].
  exists res, reset, at_time. auto.
Qed.

(** X9. [get_version] returns [None] in one situation only.  If it returns
    a result other than [None], that is the result of [get_version_real] on
    the same trace; if it returns [None], [get_version_real] raised a
    [TemporaryError] whose response has a remaining allowance of 0, and the
    last event is the log entry of the suppression. *)
Theorem none_result_means_rate_limited (w : World) (name : string)
    (conf keymanager : gmap string value) (tr tr' : list event)
    (r : result) :
  get_version w name conf keymanager tr = (inr r, tr') ->
  (r <> RNone /\
   get_version_real w name conf keymanager tr = (inr r, tr')) \/
  (r = RNone /\
   exists c m res reset at_time tr0,
     get_version_real w name conf keymanager tr =
       (inl (TemporaryError c m (Some res)), tr0) /\
     py_int (headers_get res "X-RateLimit-Remaining" (VInt (-1))) = inr 0 /\
     tr' = tr0 ++ [LogError (rate_limit_message at_time) name reset]).
Proof.
  destruct (resolution_events w name conf keymanager tr)
    as (out & evs & Hreal & _ & _ & Hout).
  unfold get_version, try_except. rewrite Hreal.
  destruct out as [e|r0].
  - destruct e; cbn [is_TemporaryError]; try discriminate.
    intros Hh. apply handler_outcome in Hh
      as [(Hr & res & reset & at_time & -> & Hn & ->) | (e & He & _)];
      [|discriminate].
    right. injection Hr as ->. split; [reflexivity|].
    exists code, message, res, reset, at_time, (tr ++ evs). auto.
  - intros [= <- <-]. left. split; [congruence | reflexivity].
Qed.

Lemma none_result_means_rate_limited_witness :
  exists c m res tr0,
    get_version_real (world_failing (failure response_exhausted)) "proj"
      conf_repo ∅ [] = (inl (TemporaryError c m (Some res)), tr0).
Proof.
  destruct (none_result_means_rate_limited
              (world_failing (failure response_exhausted)) "proj" conf_repo
              ∅ []
              [CacheGetJson "https://api.github.com/repos/o/r/commits?"
                 accept_headers;
               LogError (rate_limit_message "Thu Jan  1 00:00:00 1970")
                 "proj" 1700000000]
              RNone)
    as [[Hne _] | (_ & c & m & res & _ & _ & tr0 & Hreal & _)];
    [vm_compute; reflexivity | contradiction |].
  exists c, m, res, tr0. exact Hreal.
Defined.

(** X10. One call of [get_version] extends the trace, never rewrites it,
    and on the way reaches the network at most once and logs at most once;
    it logs only when it returns [None]. *)
Theorem one_request_one_log (w : World) (name : string)
    (conf keymanager : gmap string value) (tr tr' : list event)
    (out : exn + result) :
  get_version w name conf keymanager tr = (out, tr') ->
  exists evs,
    tr' = tr ++ evs /\
    (length (List.filter is_request evs) <= 1)%nat /\
    (length (List.filter is_log evs) <= 1)%nat /\
    (List.filter is_log evs <> [] -> out = inr RNone).
Proof.
  destruct (resolution_events w name conf keymanager tr)
    as (out0 & evs & Hreal & Hreq & Hlog & _).
  unfold get_version, try_except. rewrite Hreal.
  assert (Hsame : exists evs0,
            tr ++ evs = tr ++ evs0 /\
            (length (List.filter is_request evs0) <= 1)%nat /\
            (length (List.filter is_log evs0) <= 1)%nat /\
            (List.filter is_log evs0 <> [] -> out0 = inr RNone)).
  { exists evs. rewrite Hlog. repeat split; [exact Hreq | cbn; lia | done]. }
  destruct out0 as [e|r0]; [|intros [= <- <-]; exact Hsame].
  destruct e; cbn [is_TemporaryError];
    try (intros [= <- <-]; exact Hsame).
  intros Hh. apply handler_outcome in Hh
    as [(-> & res & reset & at_time & _ & _ & ->) | (e & -> & ->)].
  - exists (evs ++ [LogError (rate_limit_message at_time) name reset]).
    rewrite app_assoc, !List.filter_app, Hlog, !length_app.
    cbn. repeat split; (lia || done).
  - exists evs. rewrite Hlog. repeat split; [exact Hreq | cbn; lia | done].
Qed.

Lemma one_request_one_log_witness :
  exists evs,
    [CacheGetJson "https://api.github.com/repos/o/r/commits?" accept_headers;
     LogError (rate_limit_message "Thu Jan  1 00:00:00 1970") "proj"
       1700000000] = [] ++ evs /\
    (length (List.filter is_request evs) <= 1)%nat.
Proof.
  destruct (one_request_one_log
              (world_failing (failure response_exhausted)) "proj" conf_repo
              ∅ []
              [CacheGetJson "https://api.github.com/repos/o/r/commits?"
                 accept_headers;
               LogError (rate_limit_message "Thu Jan  1 00:00:00 1970")
                 "proj" 1700000000]
              (inr RNone))
    as (evs & Htr & Hreq & _); [vm_compute; reflexivity|].
  exists evs. split; [exact Htr | exact Hreq].
Defined.

(** *** The max-tag parser on any payload *)

Lemma tag_result_shape (w : World) (repo ref : value) (t : RichResult) :
  tag_result w repo ref = inr t ->
  exists s,
    tag_of_ref ref = inr s /\ version t = VStr s /\
    url t = VStr ("https://github.com/" +:+ py_str w repo +:+
                  "/releases/tag/" +:+ s).
Proof.
  unfold tag_result, ebind. destruct (tag_of_ref ref) as [e|s];
    [discriminate|].
  intros [= <-]. exists s. auto.
Qed.

Lemma comprehension_all {A B} (f : A -> exn + B) (P : B -> Prop) l out :
  (forall x y, f x = inr y -> P y) ->
  comprehension f l = inr out -> Forall P out.
Proof.
  intros Hf. revert out.
  induction l as [|x l IH]; intros out; cbn [comprehension].
  - intros [= <-]. constructor.
  - unfold ebind. destruct (f x) as [|y] eqn:Ex; [discriminate|].
    destruct (comprehension f l) as [|ys] eqn:E; [discriminate|].
    intros [= <-]. constructor; [eapply Hf, Ex|].
    apply IH. reflexivity.
Qed.

(** X11. Whatever the tag-refs endpoint answers, a resolution under
    [use_max_tag] that returns at all returns a non-empty list of results,
    each with a string version and the url
    https://github.com/{repo}/releases/tag/{version}: never an empty list, a
    single result or [None]. *)
Theorem max_tag_result_shape (w : World) (name : string)
    (conf keymanager : gmap string value) (repo : value) (tr : list event)
    (r : result) :
  conf !! "github" = Some repo ->
  truthy (conf_get conf "use_latest_tag" (VBool false)) = false ->
  truthy (conf_get conf "use_latest_release" (VBool false)) &&
  truthy (conf_get conf "include_prereleases" (VBool false)) = false ->
  truthy (conf_get conf "use_max_tag" (VBool false)) = true ->
  fst (get_version_real w name conf keymanager tr) = inr r ->
  exists t ts,
    r = RList (t :: ts) /\
    Forall (fun t =>
              exists s,
                version t = VStr s /\
                url t = VStr ("https://github.com/" +:+ py_str w repo +:+
                              "/releases/tag/" +:+ s)) (t :: ts).
Proof.
  intros Hrepo Hlt Hrp Hmax. run. rewrite Hrepo, Hlt, Hrp, Hmax.
  cbv beta zeta.
  match goal with
  | |- context [cache_get_json_result w ?u ?h] =>
      destruct (cache_get_json_result w u h) as [e|data]
  end; [discriminate|].
  cbn [fst]. unfold parse_max_tag, ebind.
  destruct (py_iter data) as [e|refs]; [discriminate|].
  destruct (comprehension (tag_result w repo) refs) as [e|tags] eqn:Hc;
    [discriminate|].
  destruct tags as [|t ts]; [discriminate|].
  intros [= <-]. exists t, ts. split; [reflexivity|].
  apply (comprehension_all (tag_result w repo) _ refs); [|exact Hc].
  intros x y Hxy. destruct (tag_result_shape w repo x y Hxy)
    as (s & _ & Hv & Hu). eauto.
Qed.

Lemma max_tag_result_shape_witness :
  exists t ts,
    RList (map (tag_rich (world_json sample_refs_doc) (VStr "o/r"))
             ["refs/tags/v1.2.3"; "refs/tags/release/2.0"]) = RList (t :: ts).
Proof.
  destruct (max_tag_result_shape (world_json sample_refs_doc) "proj"
              conf_max_tag ∅ (VStr "o/r") []
              (RList (map (tag_rich (world_json sample_refs_doc) (VStr "o/r"))
                        ["refs/tags/v1.2.3"; "refs/tags/release/2.0"])))
    as (t & ts & Hr & _);
    [vm_compute; reflexivity | vm_compute; reflexivity
    | vm_compute; reflexivity | vm_compute; reflexivity
    | vm_compute; reflexivity |].
  exists t, ts. exact Hr.
Defined.

Lemma comprehension_first_failure {A B} (f : A -> exn + B) good bad rest e :
  Forall (fun x => exists y, f x = inr y) good ->
  f bad = inl e ->
  comprehension f (good ++ bad :: rest) = inl e.
Proof.
  intros Hgood Hbad. induction Hgood as [|x good (y & Hy) _ IH].
  - cbn [app comprehension]. unfold ebind. rewrite Hbad. reflexivity.
  - cbn [app comprehension]. unfold ebind in *. rewrite Hy, IH. reflexivity.
Qed.

(** X12. The max-tag list is all or nothing: if the references before some
    element are well formed and that element's ['ref'] lookup raises (a
    missing field gives [KeyError], a non-object element [TypeError]), the
    whole resolution raises that error and returns no partial list,
    whatever follows the element. *)
Theorem max_tag_first_failure (w : World) (name : string)
    (conf keymanager : gmap string value) (repo : value) (tr : list event)
    (good : list value) (bad : value) (rest : list value) (e : exn) :
  conf !! "github" = Some repo ->
  truthy (conf_get conf "use_latest_tag" (VBool false)) = false ->
  truthy (conf_get conf "use_latest_release" (VBool false)) = false ->
  truthy (conf_get conf "use_max_tag" (VBool false)) = true ->
  let hdrs := rest_headers w (resolve_token conf keymanager) in
  cache_get_json_result w (GITHUB_MAX_TAG (py_str w repo)) hdrs =
    inr (VList (good ++ bad :: rest)) ->
  Forall (fun el => exists s, getitem el (Key "ref") = inr (VStr s)) good ->
  getitem bad (Key "ref") = inl e ->
  get_version_real w name conf keymanager tr =
    (inl e, tr ++ [CacheGetJson (GITHUB_MAX_TAG (py_str w repo)) hdrs]).
Proof.
  intros Hrepo Hlt Hr Hmax hdrs Hdata Hgood Hbad.
  run. rewrite Hrepo, Hlt, Hr, Hmax. cbn [andb]. cbv beta zeta.
  fold hdrs. rewrite Hdata. unfold parse_max_tag. cbn [py_iter ebind].
  rewrite (comprehension_first_failure (tag_result w repo) good bad rest e);
    [reflexivity | |].
  - eapply Forall_impl; [exact Hgood|]. intros el (s & Hs).
    unfold tag_result, ebind. rewrite (tag_of_ref_string el s Hs). eauto.
  - unfold tag_result, tag_of_ref, ebind. rewrite Hbad. reflexivity.
Qed.

Lemma max_tag_first_failure_witness :
  get_version_real (world_json (VList sample_broken_refs)) "proj"
    conf_max_tag ∅ [] =
    (inl (KeyError (Key "ref")),
     [CacheGetJson "https://api.github.com/repos/o/r/git/refs/tags"
        accept_headers]).
Proof.
  rewrite (max_tag_first_failure (world_json (VList sample_broken_refs))
             "proj" conf_max_tag ∅ (VStr "o/r") []
             [VDict [("ref", VStr "refs/tags/v1")]]
             (VDict [("url", VStr "u")])
             [VDict [("ref", VStr "refs/tags/v2")]]
             (KeyError (Key "ref")));
    try (vm_compute; reflexivity).
  repeat constructor. exists "refs/tags/v1". reflexivity.
Defined.

(** *** The tag of a reference string *)

Lemma split_no_separator (s : string) (budget : option nat) :
  count_char "/" s = 0%nat -> PyStr.split_from "/" s 0 budget = [s].
Proof.
  induction s as [|c r IH]; [reflexivity|].
  cbn [count_char PyStr.split_from]. rewrite prefix_char.
  destruct (Ascii.eqb c "/"); [discriminate|]. cbn [Nat.add].
  intros Hr. rewrite (IH Hr), andb_false_r. reflexivity.
Qed.

Lemma split_at_first (a r : string) (n : nat) :
  count_char "/" a = 0%nat ->
  PyStr.split_from "/" (a +:+ "/" +:+ r) 0 (Some (S n)) =
  a :: PyStr.split_from "/" r 0 (Some n).
Proof.
  induction a as [|c a IH].
  - intros _. change (EmptyString +:+ "/" +:+ r) with (String "/" r).
    cbn [PyStr.split_from PyStr.may_split andb]. rewrite prefix_char.
    reflexivity.
  - cbn [count_char]. destruct (Ascii.eqb c "/") eqn:Ec; [discriminate|].
    cbn [Nat.add]. intros Ha.
    change (String c a +:+ "/" +:+ r) with (String c (a +:+ "/" +:+ r)).
    cbn [PyStr.split_from PyStr.may_split andb].
    rewrite prefix_char, Ec, (IH Ha). reflexivity.
Qed.

Lemma join_cons_char (c : ascii) (p : string) (ps : list string) :
  PyStr.join "/" (String c p :: ps) = String c (PyStr.join "/" (p :: ps)).
Proof. destruct ps; reflexivity. Qed.

(** Joining the parts of a split with the separator gives the string back. *)
Lemma join_split (s : string) (budget : option nat) :
  PyStr.join "/" (PyStr.split_from "/" s 0 budget) = s.
Proof.
  revert budget. induction s as [|c r IH]; intros budget; [reflexivity|].
  cbn [PyStr.split_from]. rewrite prefix_char.
  change (String.length "/" - 1)%nat with 0%nat.
  destruct (PyStr.may_split budget && Ascii.eqb c "/") eqn:E.
  - apply andb_prop in E as [_ Ec]. apply Ascii.eqb_eq in Ec as ->.
    specialize (IH (PyStr.spend budget)).
    destruct (PyStr.split_from "/" r 0 (PyStr.spend budget)) as [|p ps] eqn:Es.
    + exfalso. exact (split_from_nonempty "/" r 0%nat _ Es).
    + change (PyStr.join "/" (EmptyString :: p :: ps))
        with (String "/" (PyStr.join "/" (p :: ps))).
      rewrite IH. reflexivity.
  - specialize (IH budget).
    destruct (PyStr.split_from "/" r 0 budget) as [|p ps] eqn:Es.
    + exfalso. exact (split_from_nonempty "/" r 0%nat _ Es).
    + rewrite join_cons_char, IH. reflexivity.
Qed.

Lemma join_last_suffix (parts : list string) :
  parts <> [] ->
  exists pre, PyStr.join "/" parts = pre +:+ List.last parts EmptyString.
Proof.
  induction parts as [|p ps IH]; [done|]. intros _.
  destruct ps as [|q ps]; [exists EmptyString; reflexivity|].
  destruct IH as (pre & Hpre); [done|].
  exists (p +:+ "/" +:+ pre).
  change (PyStr.join "/" (p :: q :: ps))
    with (p +:+ "/" +:+ PyStr.join "/" (q :: ps)).
  change (List.last (p :: q :: ps) EmptyString)
    with (List.last (q :: ps) EmptyString).
  rewrite Hpre, !string_app_assoc. reflexivity.
Qed.

(** X13. The version cut from a reference string is always a suffix of it:
    the whole string when it has no '/', what follows the '/' when it has
    one, and what follows the second '/' otherwise, later '/' included; the
    two leading segments need not be "refs" and "tags". *)
Theorem tag_name_segments :
  (forall s, exists pre, s = pre +:+ tag_name s) /\
  (forall s, count_char "/" s = 0%nat -> tag_name s = s) /\
  (forall a b,
     count_char "/" a = 0%nat -> count_char "/" b = 0%nat ->
     tag_name (a +:+ "/" +:+ b) = b) /\
  (forall a b v,
     count_char "/" a = 0%nat -> count_char "/" b = 0%nat ->
     tag_name (a +:+ "/" +:+ b +:+ "/" +:+ v) = v).
Proof.
  unfold tag_name. split; [|split; [|split]].
  - intros s.
    destruct (join_last_suffix (PyStr.split_from "/" s 0 (Some 2%nat)))
      as (pre & Hpre); [apply split_from_nonempty|].
    exists pre. rewrite <- Hpre, join_split. reflexivity.
  - intros s Hs. rewrite (split_no_separator s _ Hs). reflexivity.
  - intros a b Ha Hb.
    rewrite (split_at_first a b 1 Ha), (split_no_separator b _ Hb).
    reflexivity.
  - intros a b v Ha Hb.
    rewrite (split_at_first a _ 1 Ha), (split_at_first b v 0 Hb),
      split_from_exhausted.
    reflexivity.
Qed.

Lemma tag_name_segments_witness :
  tag_name ("refs" +:+ "/" +:+ "heads" +:+ "/" +:+ "feature/x") = "feature/x".
Proof.
  destruct tag_name_segments as (_ & _ & _ & Htwo).
  apply Htwo; reflexivity.
Defined.

(** *** The version of the commits strategy *)

Lemma in_chars_app (c : ascii) (a b : string) :
  PyStr.in_chars c (a +:+ b) = PyStr.in_chars c a || PyStr.in_chars c b.
Proof.
  unfold PyStr.in_chars. induction a as [|x a IH]; [reflexivity|].
  change (String x a +:+ b) with (String x (a +:+ b)).
  cbn [list_ascii_of_string existsb]. rewrite IH, orb_assoc. reflexivity.
Qed.

Lemma in_chars_flat_map (c : ascii) f (s : string) :
  (forall x, PyStr.in_chars c (f x) = false) ->
  PyStr.in_chars c (string_flat_map f s) = false.
Proof.
  intros Hf. induction s as [|x r IH]; [reflexivity|].
  cbn [string_flat_map]. rewrite in_chars_app, Hf, IH. reflexivity.
Qed.

Lemma date_char_has_no (c x : ascii) :
  PyStr.in_chars c "-:T" = true -> PyStr.in_chars c (date_char x) = false.
Proof.
  unfold PyStr.in_chars. cbn [list_ascii_of_string existsb].
  rewrite orb_false_r. intros Hc. unfold date_char.
  destruct (Ascii.eqb x "-") eqn:E1; [reflexivity|].
  destruct (Ascii.eqb x ":") eqn:E2; [reflexivity|].
  destruct (Ascii.eqb x "T") eqn:E3.
  - apply orb_prop in Hc as [Hc | Hc]; [|apply orb_prop in Hc as [Hc | Hc]];
      apply Ascii.eqb_eq in Hc as ->; reflexivity.
  - cbn [list_ascii_of_string existsb]. rewrite orb_false_r.
    apply orb_prop in Hc as [Hc | Hc]; [|apply orb_prop in Hc as [Hc | Hc]];
      apply Ascii.eqb_eq in Hc as ->; rewrite Ascii.eqb_sym; assumption.
Qed.

(** X14. Whatever string the commit carries as its date, the version made
    from it contains no '-', no ':' and no 'T'. *)
Theorem date_version_has_no_separator (d : string) (c : ascii) :
  PyStr.in_chars c "-:T" = true ->
  PyStr.in_chars c (date_version d) = false.
Proof.
  intros Hc. rewrite date_version_chars.
  apply in_chars_flat_map. intros x. apply date_char_has_no, Hc.
Qed.

Lemma date_version_has_no_separator_witness :
  PyStr.in_chars "T" (date_version "T-T:TZTZ") = false.
Proof.
  apply (date_version_has_no_separator "T-T:TZTZ" "T"). reflexivity.
Defined.

Lemma rstrip_keep (chars : string) (c : ascii) (r : string) :
  PyStr.in_chars c chars = false ->
  PyStr.rstrip chars (String c r) = String c (PyStr.rstrip chars r).
Proof.
  intros Hc. cbn [PyStr.rstrip]. rewrite Hc.
  destruct (PyStr.rstrip chars r); reflexivity.
Qed.

Lemma digit_kept (c : ascii) :
  PyStr.is_digit c = true -> PyStr.in_chars c "Z" = false.
Proof.
  intros Hc. unfold PyStr.in_chars. cbn [list_ascii_of_string existsb].
  rewrite (digit_not c "Z" Hc eq_refl). reflexivity.
Qed.

(** X15. The format the comment of the commits branch names: for every
    timestamp [YYYY-MM-DDTHH:MM:SSZ] made of fourteen digits the version is
    the fifteen characters [YYYYMMDD.HHMMSS], the same digits in the same
    order. *)
Theorem date_version_format
    (y1 y2 y3 y4 m1 m2 d1 d2 h1 h2 n1 n2 s1 s2 : ascii) :
  forallb PyStr.is_digit
    [y1; y2; y3; y4; m1; m2; d1; d2; h1; h2; n1; n2; s1; s2] = true ->
  date_version (timestamp y1 y2 y3 y4 m1 m2 d1 d2 h1 h2 n1 n2 s1 s2) =
  version_token y1 y2 y3 y4 m1 m2 d1 d2 h1 h2 n1 n2 s1 s2.
Proof.
  cbn [forallb]. intros H. split_andb.
  rewrite date_version_chars. unfold timestamp.
  repeat (rewrite rstrip_keep
            by first [apply digit_kept; assumption | reflexivity]).
  change (PyStr.rstrip "Z" "Z") with EmptyString.
  cbn [string_flat_map].
  repeat match goal with
         | H : PyStr.is_digit ?c = true |- _ =>
             rewrite (date_char_digit c H); clear H
         end.
  reflexivity.
Qed.

Lemma date_version_format_witness :
  date_version "1999-12-31T23:59:59Z" = "19991231.235959".
Proof.
  apply (date_version_format "1" "9" "9" "9" "1" "2" "3" "1" "2" "3" "5" "9"
           "5" "9").
  reflexivity.
Defined.

(** *** The query string of the commits request *)

Lemma count_char_app (c : ascii) (a b : string) :
  count_char c (a +:+ b) = (count_char c a + count_char c b)%nat.
Proof.
  induction a as [|x a IH]; [reflexivity|].
  change (String x a +:+ b) with (String x (a +:+ b)).
  cbn [count_char]. rewrite IH. lia.
Qed.

Lemma count_char_other (c x : ascii) :
  c <> x -> count_char c (String x EmptyString) = 0%nat.
Proof.
  intros Hne. cbn [count_char].
  destruct (Ascii.eqb_spec x c) as [->|]; [contradiction | reflexivity].
Qed.

Lemma hex_digit_safe (n : nat) :
  (n < 16)%nat -> PyStr.always_safe (PyStr.hex_digit n) = true.
Proof.
  intros Hn. do 16 (destruct n as [|n]; [reflexivity|]). lia.
Qed.

Lemma count_percent (c x : ascii) :
  url_safe_char c = false -> count_char c (PyStr.percent x) = 0%nat.
Proof.
  intros Hc. unfold PyStr.percent. cbn [count_char].
  assert (Hx : (nat_of_ascii x < 256)%nat) by apply nat_ascii_bounded.
  assert (Hsafe : forall y, url_safe_char y = true -> Ascii.eqb y c = false).
  { intros y Hy. destruct (Ascii.eqb_spec y c) as [->|]; [congruence | done]. }
  rewrite (Hsafe "%"%char eq_refl).
  rewrite !Hsafe; [reflexivity | |]; unfold url_safe_char;
    rewrite hex_digit_safe; try reflexivity.
  - apply Nat.mod_upper_bound. lia.
  - apply Nat.Div0.div_lt_upper_bound. lia.
Qed.

(** No character outside the safe set, '+' and '%' survives [quote_plus]. *)
Lemma count_quote_plus (c : ascii) (s : string) :
  url_safe_char c = false -> count_char c (PyStr.quote_plus s) = 0%nat.
Proof.
  intros Hc. induction s as [|x r IH]; [reflexivity|].
  cbn [PyStr.quote_plus].
  assert (Hsafe : forall y, url_safe_char y = true -> Ascii.eqb y c = false).
  { intros y Hy. destruct (Ascii.eqb_spec y c) as [->|]; [congruence | done]. }
  destruct (PyStr.always_safe x) eqn:Ex.
  - cbn [count_char]. rewrite IH, Hsafe; [reflexivity|].
    unfold url_safe_char. rewrite Ex. reflexivity.
  - destruct (Ascii.eqb x " ").
    + cbn [count_char]. rewrite IH, (Hsafe "+"%char eq_refl). reflexivity.
    + rewrite count_char_app, IH, count_percent by exact Hc. reflexivity.
Qed.

(** X16. The parameters of the commits request cannot be forged by the
    values of [branch] and [path]: in the encoded query string a character
    that is not letter, digit, one of [_.-~+%], '&' or '=' never occurs
    (so no '?', '#', '/' or space), '&' occurs only as the separator of the
    two parameters, and '=' once per parameter. *)
Theorem commits_query_is_encoded (w : World) (br path : value) :
  let parameters := commit_parameters br path in
  let q := urlencode w parameters in
  (forall c, url_safe_char c = false -> c <> "&"%char -> c <> "="%char ->
             count_char c q = 0%nat) /\
  count_char "&" q = Nat.pred (length parameters) /\
  count_char "=" q = length parameters.
Proof.
  intros parameters q. subst parameters q.
  unfold commit_parameters, urlencode.
  destruct (truthy br), (truthy path);
    cbn [app map PyStr.join fst snd length Nat.pred];
    (split; [intros c Hc Hamp Heq | split]);
    rewrite ?count_char_app, ?count_quote_plus by (exact Hc || reflexivity);
    rewrite ?count_char_other by congruence;
    reflexivity.
Qed.

Lemma commits_query_is_encoded_witness :
  count_char "&"
    (urlencode (world_json VNone)
       (commit_parameters (VStr "a&path=b") (VStr "src/x y"))) = 1%nat.
Proof.
  destruct (commits_query_is_encoded (world_json VNone) (VStr "a&path=b")
              (VStr "src/x y")) as (_ & Hamp & _).
  rewrite Hamp. reflexivity.
Defined.

(** *** Options that a strategy does not read *)

Lemma conf_get_insert_ne (conf : gmap string value) k k' v d :
  k <> k' -> conf_get (<[k := v]> conf) k' d = conf_get conf k' d.
Proof. intros Hne. unfold conf_get. rewrite lookup_insert_ne by done. done. Qed.

Lemma resolve_token_insert_ne (conf km : gmap string value) k v :
  k <> "token" -> resolve_token (<[k := v]> conf) km = resolve_token conf km.
Proof.
  intros Hne. unfold resolve_token. rewrite conf_get_insert_ne by done. done.
Qed.

Ltac other_keys k v conf :=
  unfold conf_item;
  rewrite ?(lookup_insert_ne conf k "github" v) by done;
  rewrite ?(resolve_token_insert_ne conf _ k v) by done;
  rewrite ?(conf_get_insert_ne conf k "use_latest_tag" v) by done;
  rewrite ?(conf_get_insert_ne conf k "query" v) by done;
  rewrite ?(conf_get_insert_ne conf k "use_latest_release" v) by done;
  rewrite ?(conf_get_insert_ne conf k "include_prereleases" v) by done;
  rewrite ?(conf_get_insert_ne conf k "branch" v) by done;
  rewrite ?(conf_get_insert_ne conf k "path" v) by done;
  rewrite ?(conf_get_insert_ne conf k "use_max_tag" v) by done.

(** X17. Options are read only by the strategy they belong to: [query]
    changes nothing unless [use_latest_tag] is true, [include_prereleases]
    changes nothing unless [use_latest_release] is true, and [branch] and
    [path] change nothing once [use_latest_release] or [use_max_tag] is
    true. *)
Theorem unread_options_change_nothing (w : World) (name : string)
    (conf keymanager : gmap string value) (v : value) (tr : list event) :
  let flag k := truthy (conf_get conf k (VBool false)) in
  let same k :=
    get_version_real w name (<[k := v]> conf) keymanager tr =
    get_version_real w name conf keymanager tr in
  (flag "use_latest_tag" = false -> same "query") /\
  (flag "use_latest_release" = false -> same "include_prereleases") /\
  (flag "use_latest_release" = true \/ flag "use_max_tag" = true ->
   same "branch" /\ same "path").
Proof.
  intros flag same. subst flag same. cbv beta.
  split; [|split].
  - intros Hlt. unfold get_version_real. other_keys "query" v conf.
    rewrite Hlt. reflexivity.
  - intros Hr. unfold get_version_real.
    other_keys "include_prereleases" v conf. rewrite Hr. reflexivity.
  - intros Hflags. split.
    + unfold get_version_real. other_keys "branch" v conf.
      destruct Hflags as [Hr | Hm]; [rewrite Hr; reflexivity|].
      rewrite Hm.
      destruct (truthy (conf_get conf "use_latest_release" (VBool false)));
        reflexivity.
    + unfold get_version_real. other_keys "path" v conf.
      destruct Hflags as [Hr | Hm]; [rewrite Hr; reflexivity|].
      rewrite Hm.
      destruct (truthy (conf_get conf "use_latest_release" (VBool false)));
        reflexivity.
Qed.

Lemma unread_options_change_nothing_witness :
  get_version_real (world_json sample_refs_doc) "proj"
    (<["branch" := VStr "main"]> conf_max_tag) ∅ [] =
  get_version_real (world_json sample_refs_doc) "proj" conf_max_tag ∅ [].
Proof.
  destruct (unread_options_change_nothing (world_json sample_refs_doc) "proj"
              conf_max_tag ∅ (VStr "main") []) as (_ & _ & Hrest).
  apply Hrest. right. vm_compute. reflexivity.
Defined.

(** *** The commits parser on a malformed first commit *)

(** X18. Under the commits strategy the version is computed before the url
    is read: when element 0's [commit.committer.date] is present but is not
    a string the resolution raises [AttributeError], whether or not
    [html_url] is there; when the date is a string and [html_url] is
    missing it raises the lookup's error. *)
Theorem commits_version_before_url (w : World) (name : string)
    (conf keymanager : gmap string value) (repo : value) (tr : list event)
    (e0 : value) (rest : list value) (date : value) :
  conf !! "github" = Some repo ->
  truthy (conf_get conf "use_latest_tag" (VBool false)) = false ->
  truthy (conf_get conf "use_latest_release" (VBool false)) = false ->
  truthy (conf_get conf "use_max_tag" (VBool false)) = false ->
  cache_get_json_result w
    (commits_url w repo (conf_get conf "branch" VNone)
       (conf_get conf "path" VNone))
    (rest_headers w (resolve_token conf keymanager)) =
    inr (VList (e0 :: rest)) ->
  getpath e0 [Key "commit"; Key "committer"; Key "date"] = inr date ->
  let out := fst (get_version_real w name conf keymanager tr) in
  ((forall d, date <> VStr d) -> out = inl AttributeError) /\
  (forall d e,
     date = VStr d -> getitem e0 (Key "html_url") = inl e -> out = inl e).
Proof.
  intros Hrepo Hlt Hr Hmax Hdata Hdate out. subst out.
  rewrite (commits_run w name conf keymanager repo tr Hrepo Hlt Hr Hmax).
  cbn [fst]. rewrite Hdata. cbn [ebind]. unfold parse_commits.
  rewrite !getpath_head, Hdate. cbn [ebind]. split.
  - intros Hnot. destruct date; try reflexivity.
    exfalso. eapply Hnot. reflexivity.
  - intros d e -> Hurl. cbn [date_version_of ebind].
    unfold getpath. rewrite Hurl. reflexivity.
Qed.

Lemma commits_version_before_url_witness :
  fst (get_version_real (world_json (VList [sample_commit_no_date])) "proj"
         conf_repo ∅ []) = inl AttributeError.
Proof.
  destruct (commits_version_before_url
              (world_json (VList [sample_commit_no_date])) "proj" conf_repo ∅
              (VStr "o/r") [] sample_commit_no_date [] VNone)
    as [Hattr _];
    [vm_compute; reflexivity | vm_compute; reflexivity
    | vm_compute; reflexivity | vm_compute; reflexivity
    | vm_compute; reflexivity | vm_compute; reflexivity |].
  apply Hattr. discriminate.
Defined.
